(** * Yahoo-news scraper: a shallow embedding of [news_scraper.py] and [main.py]

    The scraper drives a browser, reads article cards, counts a search phrase,
    downloads images and writes two report files.  Everything outside the
    Python process (the page, the network, the clock, the Unicode tables of
    the interpreter) is an oracle [Env]; everything the run changes (the
    number of polls made, the files and directories created, the
    chronological list of calls and log lines) is a [State].  A method of
    [NewsScraper] is a function in the monad [M A := State -> res A * State],
    whose results are a normal return, a raised Python exception, or running
    out of the fuel that bounds the one unbounded loop of the program.

    A Python [str] is a list of Unicode code points.  What [str.upper],
    [str.lower] and the regular-expression class [\w] do to a code point is
    read from the tables of [Env], since it depends on the Unicode version of
    the interpreter: [upper] maps every character on its own, to one or more
    characters (['ß'.upper() == 'SS']); [lower] is a function of the whole
    string (a capital sigma is lowered according to its place in the word)
    and may change its length (['İ'.lower()] has two characters); [\w] is a
    class of code points. *)

From Stdlib Require Import String Ascii List Bool Arith NArith ZArith Lia.
Import ListNotations.
Local Open Scope string_scope.
Local Open Scope list_scope.

(** ** Python string primitives *)

Definition codepoint : Type := N.

(** A Python [str]. *)
Definition str : Type := list codepoint.

(** [ord(c)] of a character of the source text. *)
Definition chr (c : ascii) : codepoint := N_of_ascii c.

(** The [str] of a literal of the source text; the literals of the scraper
    have ASCII characters only. *)
Fixpoint u (s : string) : str :=
  match s with
  | EmptyString => []
  | String c s' => chr c :: u s'
  end.

Module Py.

(** [a == b]. *)
Fixpoint eqb (a b : str) : bool :=
  match a, b with
  | [], [] => true
  | x :: a', y :: b' => N.eqb x y && eqb a' b'
  | _, _ => false
  end.

(** [s.upper()], by the table of the characters' upper-case mappings. *)
Definition upper (upper_char : codepoint -> str) (s : str) : str :=
  flat_map upper_char s.

(** [s.replace(old, new)] for one-character [old] and [new], the only use
    the scraper makes of it. *)
Definition replace (old new : codepoint) (s : str) : str :=
  map (fun c => if N.eqb c old then new else c) s.

(** [s[:n]]. *)
Fixpoint slice_to (n : nat) (s : str) : str :=
  match n, s with
  | O, _ => []
  | _, [] => []
  | S n', c :: s' => c :: slice_to n' s'
  end.

(** [bool(s)] of a string: false exactly for the empty one. *)
Definition truthy (s : str) : bool :=
  match s with [] => false | _ :: _ => true end.

(** [s.startswith(p)]. *)
Fixpoint startswith (p s : str) : bool :=
  match p, s with
  | [], _ => true
  | _ :: _, [] => false
  | a :: p', b :: s' => N.eqb a b && startswith p' s'
  end.

(** The scan behind [s.count(sub)] for a non-empty [sub]: left to right, and
    a match at a position makes the scan resume after the matched text, so
    the [skip] characters it covers start no further match. *)
Fixpoint count_from (skip : nat) (sub s : str) : nat :=
  match s with
  | [] => 0
  | _ :: s' =>
      match skip with
      | S k => count_from k sub s'
      | O =>
          if startswith sub s
          then S (count_from (length sub - 1) sub s')
          else count_from 0 sub s'
      end
  end.

(** [s.count(sub)]: the empty [sub] is found between all characters and at
    both ends. *)
Definition count (s sub : str) : nat :=
  match sub with
  | [] => length s + 1
  | _ :: _ => count_from 0 sub s
  end.

(** Length of the longest run of [\W] characters that [s] starts with: what
    the greedy pattern [\W+] matches at the head of [s] (0: no match). *)
Fixpoint nonword_run (is_word : codepoint -> bool) (s : str) : nat :=
  match s with
  | [] => 0
  | c :: s' => if is_word c then 0 else S (nonword_run is_word s')
  end.

(** [re.sub(r'\W+', '', s)]: at each position not covered by an earlier
    match the pattern is tried; a match of [n] characters is replaced by the
    empty string and the scan resumes behind it, otherwise the character is
    copied. *)
Fixpoint sub_nonword_from (is_word : codepoint -> bool) (skip : nat) (s : str)
  : str :=
  match s with
  | [] => []
  | c :: s' =>
      match skip with
      | S k => sub_nonword_from is_word k s'
      | O =>
          match nonword_run is_word s with
          | O => c :: sub_nonword_from is_word 0 s'
          | S k => sub_nonword_from is_word k s'
          end
      end
  end.

Definition re_sub_nonword (is_word : codepoint -> bool) (s : str) : str :=
  sub_nonword_from is_word 0 s.

(** [os.path.join(a, b)] on a POSIX system: an absolute [b] discards [a]. *)
Definition ends_with_slash (a : str) : bool :=
  match nth_error a (length a - 1) with
  | Some c => N.eqb c (chr "/")
  | None => false
  end.

Definition os_path_join (a b : str) : str :=
  if startswith (u "/") b then b
  else if negb (truthy a) || ends_with_slash a then a ++ b
  else a ++ u "/" ++ b.

End Py.

(** ** The world outside the process *)

(** A handle on an element of the page, as far as the scraper reads it. *)
Record WebElement := { text : str }.

(** [bool(element)]: the class defines neither [__bool__] nor [__len__], so
    every element is true. *)
Definition element_truthy (_ : WebElement) : bool := true.

(** An article card [li.stream-item] as far as the scraper looks into it:
    its first [h3.stream-item-title], its first
    [p[data-test-locator='stream-item-summary']], and the [src] attribute of
    its first [img] ([None]: no such element; [Some None]: an image element
    without the attribute). *)
Record Article := {
  h3_stream_item_title : option WebElement;
  p_stream_item_summary : option WebElement;
  img : option (option str)
}.

(** The exceptions the calls of the scraper raise. *)
Inductive exn :=
| NoSuchElementException (selector : string)
| TimeoutException
| ValueError (message : str)
| URLError (reason : string)
| OSError (reason : string).

(** The dictionary built for one article, a field per key. *)
Module NewsItem.
Record t := {
  title : str;
  description : str;
  date : str;
  picture_filename : str;
  search_phrase_count : Z
}.
End NewsItem.

(** What the run cannot control.

    - [upper_char c] is [c.upper()], [str_lower s] is [s.lower()] and
      [is_word c] tells whether the pattern [\w] matches [c], in the
      interpreter that runs the scraper.
    - [utcnow] is the reading of the clock in [__init__], formatted;
      [strftime_date] and [report_time] are the later readings that go into
      the records and into the text log.
    - [polls n] is what the page shows for [css:li.stream-item] at the
      [n]-th query of the run (counted from 0).
    - [urlretrieve url path] is [None] when the download succeeds and the
      exception it raises otherwise; [urlretrieve_wrote url path] tells
      whether a download that raised had created the file at [path] before
      it did (the target is opened before the body is read).
    - The browser answers every call: a look-up that finds nothing
      ([is_element_visible], the waits, [find_element]) is the failure of a
      call that the model knows; a browser that has gone away is not
      modelled.  Directories can be created where the run wants them. *)
Record Env := {
  upper_char : codepoint -> str;
  str_lower : str -> str;
  is_word : codepoint -> bool;
  utcnow : str;
  strftime_date : str;
  report_time : str;
  is_element_visible : str -> bool;
  heading_appears : bool;
  polls : nat -> list Article;
  urlretrieve : str -> str -> option exn;
  urlretrieve_wrote : str -> str -> bool;
  to_excel : str -> option exn;
  open_for_writing : str -> option exn
}.

Inductive level := INFO | ERROR.

(** The log lines of the program, by their format string. *)
Inductive log_msg :=
| InitializedNewsScraper (site_url search_phrase category : str)
| CreatedOutputDirectory (output_dir : str)
| OpeningSite (site_url : str) (headless : bool)
| FilteringNewsByCategory (category : str)
| CategoryNotFoundOnSite (category : str)
| ScrollingAndLoading
| LoadedArticles (n : nat)
| NoMoreArticlesLoaded
| ExtractedImageUrl (image_url : option str)
| FailedToExtractImageUrl (e : exn)
| ExtractingNewsData
| ExtractedNewsItem (news_item : NewsItem.t)
| ErrorExtractingArticle (e : exn)
| SearchPhraseCountIn (title description : str) (count : Z)
| DownloadedImageTo (image_path : str)
| FailedToDownloadImage (e : exn)
| DataSavedTo (file_name : str)
| ScrapingLogSavedTo (log_filename : str)
| FailedToSaveScrapingLog (e : exn)
| ClosingAllBrowsers.

(** What the process does to the world, in the order it does it. *)
Inductive event :=
| Logged (lv : level) (msg : log_msg)
| Makedirs (path : str)
| OpenAvailableBrowser (url : str) (headless : bool)
| IsElementVisible (locator : str)
| ClickElement (locator : str)
| WaitPresence (selector : string) (timeout : nat)
| ExecuteJavascript (script : string)
| Sleep (seconds : nat)
| GetWebelements (locator : string)
| FindElement (selector : string)
| Urlretrieve (url path : str)
| DataFrameToExcel (file_name : str) (rows : list NewsItem.t)
| WroteScrapeLog (log_filename generated site_url category search_phrase
                   excel_file : str) (rows : list NewsItem.t)
| CloseAllBrowsers.

Record State := {
  polled : nat;
  dirs : list str;
  files : list str;
  trace : list event
}.

(** ** The monad of the methods *)

Inductive res (A : Type) :=
| Ok (a : A)
| Raise (e : exn)
| OutOfFuel.
Arguments Ok {A} a.
Arguments Raise {A} e.
Arguments OutOfFuel {A}.

Definition M (A : Type) : Type := State -> res A * State.

Definition ret {A} (a : A) : M A := fun st => (Ok a, st).

Definition bind {A B} (m : M A) (k : A -> M B) : M B :=
  fun st =>
    match m st with
    | (Ok a, st') => k a st'
    | (Raise e, st') => (Raise e, st')
    | (OutOfFuel, st') => (OutOfFuel, st')
    end.

Definition raise {A} (e : exn) : M A := fun st => (Raise e, st).

Definition out_of_fuel {A} : M A := fun st => (OutOfFuel, st).

(** [try: body except Exception as e: handler(e)].  What [body] did before
    it raised stays done. *)
Definition try_except {A} (body : M A) (handler : exn -> M A) : M A :=
  fun st =>
    match body st with
    | (Raise e, st') => handler e st'
    | r => r
    end.

Declare Scope monad_scope.
Delimit Scope monad_scope with monad.
Notation "x <- m ;; k" := (bind m (fun x => k))
  (at level 100, m at next level, right associativity) : monad_scope.
Notation "m ;; k" := (bind m (fun _ => k))
  (at level 100, right associativity) : monad_scope.
Local Open Scope monad_scope.

Definition emit (e : event) : M unit :=
  fun st => (Ok tt, {| polled := polled st; dirs := dirs st; files := files st;
                       trace := trace st ++ [e] |}).

Definition info (msg : log_msg) : M unit := emit (Logged INFO msg).
Definition error (msg : log_msg) : M unit := emit (Logged ERROR msg).

Definition string_in (x : str) (l : list str) : bool :=
  existsb (Py.eqb x) l.

(** [os.path.exists(path)]. *)
Definition os_path_exists (path : str) : M bool :=
  fun st => (Ok (string_in path (dirs st) || string_in path (files st)), st).

(** [os.makedirs(path, exist_ok=True)], where the directory can be made:
    the call that finds a plain file at [path], or no permission, is not
    modelled. *)
Definition os_makedirs (path : str) : M unit :=
  fun st => (Ok tt, {| polled := polled st;
                       dirs := if string_in path (dirs st) then dirs st
                               else dirs st ++ [path];
                       files := files st;
                       trace := trace st ++ [Makedirs path] |}).

Definition create_file (path : str) : M unit :=
  fun st => (Ok tt, {| polled := polled st; dirs := dirs st;
                       files := if string_in path (files st) then files st
                                else files st ++ [path];
                       trace := trace st |}).

(** ** [NewsScraper] *)

Record NewsScraper := {
  site_url : str;
  search_phrase : str;
  category : str;
  headless : bool;
  timestamp : str;
  output_dir : str;
  images_dir : str
}.

(** [config] as [main] reads it: three required keys and an optional one. *)
Module Config.
Record t := {
  site_url : str;
  search_phrase : str;
  category : str;
  headless : option bool
}.
End Config.

Definition placeholder : str := u "placeholder.png".

Section Scraper.

Variable env : Env.

(** [category.upper().replace(" ", "_")], written out at four places of the
    class. *)
Definition category_prefix (category : str) : str :=
  Py.replace (chr " ") (chr "_") (Py.upper (upper_char env) category).

Definition create_output_directory (category timestamp : str) : M str :=
  let category_prefix := category_prefix category in
  let output_dir :=
    Py.os_path_join (u "output") (category_prefix ++ u "_" ++ timestamp) in
  exists_ <- os_path_exists output_dir ;;
  (if negb exists_
   then os_makedirs output_dir ;; info (CreatedOutputDirectory output_dir)
   else ret tt) ;;
  ret output_dir.

(** [NewsScraper.__init__]. *)
Definition init (site_url search_phrase category : str) (headless : bool)
  : M NewsScraper :=
  let timestamp := utcnow env in
  output_dir <- create_output_directory category timestamp ;;
  let images_dir := Py.os_path_join output_dir (u "images") in
  os_makedirs images_dir ;;
  info (InitializedNewsScraper site_url search_phrase category) ;;
  ret {| site_url := site_url; search_phrase := search_phrase;
         category := category; headless := headless; timestamp := timestamp;
         output_dir := output_dir; images_dir := images_dir |}.

Definition open_site (self : NewsScraper) : M unit :=
  info (OpeningSite (site_url self) (headless self)) ;;
  emit (OpenAvailableBrowser (site_url self) (headless self)).

Definition filter_news_by_category (self : NewsScraper) : M unit :=
  if Py.truthy (category self) then
    info (FilteringNewsByCategory (category self)) ;;
    let category_locator :=
      u "xpath://span[text()='" ++ category self ++ u "']" in
    emit (IsElementVisible category_locator) ;;
    if is_element_visible env category_locator then
      emit (ClickElement category_locator) ;;
      emit (WaitPresence "h3" 10) ;;
      if heading_appears env then ret tt else raise TimeoutException
    else
      error (CategoryNotFoundOnSite (category self)) ;;
      raise (ValueError (u "Category '" ++ category self ++ u "' not found."))
  else ret tt.

(** [self.browser.get_webelements(locator)]: the next poll of the page, by
    a browser that answers. *)
Definition get_webelements (locator : string) : M (list Article) :=
  fun st => (Ok (polls env (polled st)),
             {| polled := S (polled st); dirs := dirs st; files := files st;
                trace := trace st ++ [GetWebelements locator] |}).

(** The [while len(articles) < 20] loop of [scroll_and_load], one unit of
    fuel per pass; both ways out of it (the condition and the [break]) hand
    [articles] to the [return] behind the loop. *)
Fixpoint scroll_loop (fuel : nat) (articles : list Article) (previous_count : nat)
  : M (list Article) :=
  if (length articles <? 20)%nat then
    match fuel with
    | O => out_of_fuel
    | S fuel' =>
        emit (ExecuteJavascript "window.scrollBy(0, document.body.scrollHeight/3);") ;;
        emit (Sleep 4) ;;
        articles <- get_webelements "css:li.stream-item" ;;
        info (LoadedArticles (length articles)) ;;
        if (length articles =? previous_count)%nat then
          info NoMoreArticlesLoaded ;;
          ret articles
        else
          scroll_loop fuel' articles (length articles)
    end
  else ret articles.

Definition scroll_and_load (fuel : nat) : M (list Article) :=
  info ScrollingAndLoading ;;
  articles <- scroll_loop fuel [] 0 ;;
  ret (firstn 20 articles).

Definition extract_image_url (article : Article) : M (option str) :=
  try_except
    (emit (FindElement "img") ;;
     match img article with
     | None => raise (NoSuchElementException "img")
     | Some image_url =>
         info (ExtractedImageUrl image_url) ;;
         ret image_url
     end)
    (fun e => error (FailedToExtractImageUrl e) ;; ret None).

Definition search_phrase_count (self : NewsScraper) (title description : str)
  : M Z :=
  let count :=
    (Z.of_nat (Py.count (str_lower env title) (str_lower env (search_phrase self)))
     + Z.of_nat (Py.count (str_lower env description)
                   (str_lower env (search_phrase self))))%Z in
  info (SearchPhraseCountIn title description count) ;;
  ret count.

(** [not image_url] for an [image_url] that is a string or [None]. *)
Definition no_url (image_url : option str) : bool :=
  match image_url with
  | None => true
  | Some url => negb (Py.truthy url)
  end.

Definition url_text (image_url : option str) : str :=
  match image_url with Some url => url | None => [] end.

(** [urllib.request.urlretrieve(url, path)]: the request; then either the
    file at [path], or the exception, behind which the file may have been
    created all the same. *)
Definition urllib_urlretrieve (url path : str) : M unit :=
  emit (Urlretrieve url path) ;;
  match urlretrieve env url path with
  | Some e =>
      (if urlretrieve_wrote env url path then create_file path else ret tt) ;;
      raise e
  | None => create_file path
  end.

Definition download_image (self : NewsScraper) (image_url : option str)
  (title : str) : M str :=
  if no_url image_url then ret placeholder
  else
    try_except
      (let title_sanitized :=
         Py.re_sub_nonword (is_word env) (Py.slice_to 15 title) in
       let category_prefix := category_prefix (category self) in
       let image_filename :=
         category_prefix ++ u "_" ++ title_sanitized ++ u "_" ++ timestamp self
         ++ u ".jpg" in
       let image_path := Py.os_path_join (images_dir self) image_filename in
       urllib_urlretrieve (url_text image_url) image_path ;;
       info (DownloadedImageTo image_path) ;;
       ret image_filename)
      (fun e => error (FailedToDownloadImage e) ;; ret placeholder).

(** The body of the [try] in the loop of [extract_news_data].  The values of
    the dictionary are evaluated in the order they are written: the image is
    downloaded before the phrase is counted. *)
Definition extract_article (self : NewsScraper) (article : Article)
  : M NewsItem.t :=
  emit (FindElement "h3.stream-item-title") ;;
  title_element <-
    match h3_stream_item_title article with
    | Some el => ret el
    | None => raise (NoSuchElementException "h3.stream-item-title")
    end ;;
  emit (WaitPresence "p[data-test-locator='stream-item-summary']" 10) ;;
  description_element <-
    match p_stream_item_summary article with
    | Some el => ret el
    | None => raise TimeoutException
    end ;;
  image_url <- extract_image_url article ;;
  let title := text title_element in
  let description :=
    if element_truthy description_element then text description_element
    else u "No description available" in
  let date := strftime_date env in
  picture_filename <- download_image self image_url (text title_element) ;;
  search_phrase_count <-
    search_phrase_count self (text title_element)
      (if element_truthy description_element then text description_element
       else []) ;;
  ret {| NewsItem.title := title;
         NewsItem.description := description;
         NewsItem.date := date;
         NewsItem.picture_filename := picture_filename;
         NewsItem.search_phrase_count := search_phrase_count |}.

(** [for article in articles: try: ... except Exception as e: ...]. *)
Fixpoint extract_loop (self : NewsScraper) (articles : list Article)
  (news_data : list NewsItem.t) : M (list NewsItem.t) :=
  match articles with
  | [] => ret news_data
  | article :: rest =>
      news_data <-
        try_except
          (news_item <- extract_article self article ;;
           info (ExtractedNewsItem news_item) ;;
           ret (news_data ++ [news_item]))
          (fun e => error (ErrorExtractingArticle e) ;; ret news_data) ;;
      extract_loop self rest news_data
  end.

Definition extract_news_data (self : NewsScraper) (fuel : nat)
  : M (list NewsItem.t) :=
  info ExtractingNewsData ;;
  articles <- scroll_and_load fuel ;;
  extract_loop self articles [].

Definition save_scrape_log (self : NewsScraper) (news_data : list NewsItem.t)
  (file_name : str) : M unit :=
  let log_filename :=
    Py.os_path_join (output_dir self)
      (category_prefix (category self) ++ u "_scrape_log_" ++ timestamp self
       ++ u ".txt") in
  try_except
    (match open_for_writing env log_filename with
     | Some e => raise e
     | None =>
         create_file log_filename ;;
         emit (WroteScrapeLog log_filename (report_time env) (site_url self)
                 (category self) (search_phrase self) file_name news_data) ;;
         info (ScrapingLogSavedTo log_filename)
     end)
    (fun e => error (FailedToSaveScrapingLog e)).

Definition save_to_excel (self : NewsScraper) (news_data : list NewsItem.t)
  : M unit :=
  let category_prefix := category_prefix (category self) in
  let file_name :=
    Py.os_path_join (output_dir self)
      (category_prefix ++ u "_news_data_" ++ timestamp self ++ u ".xlsx") in
  match to_excel env file_name with
  | Some e => raise e
  | None =>
      create_file file_name ;;
      emit (DataFrameToExcel file_name news_data) ;;
      info (DataSavedTo file_name) ;;
      save_scrape_log self news_data file_name
  end.

Definition close (self : NewsScraper) : M unit :=
  info ClosingAllBrowsers ;;
  emit CloseAllBrowsers.

(** [main], from the configuration on ([get_config] reads a file outside the
    model). *)
Definition main (config : Config.t) (fuel : nat) : M unit :=
  scraper <-
    init (Config.site_url config) (Config.search_phrase config)
      (Config.category config)
      (match Config.headless config with Some h => h | None => true end) ;;
  open_site scraper ;;
  filter_news_by_category scraper ;;
  news_data <- extract_news_data scraper fuel ;;
  save_to_excel scraper news_data ;;
  close scraper.

End Scraper.

(** The state a run starts from: nothing polled, written or done. *)
Definition initial_state : State :=
  {| polled := 0; dirs := []; files := []; trace := [] |}.

(** ** The words of the specification, for comparison with the code *)

Module Spec.















(** The characters of [s] that belong to [\w], in their order: [s] with
    every run of other characters removed. *)
Definition word_chars (is_word : codepoint -> bool) (s : str) : str :=
  filter is_word s.

Definition sanitized_title_prefix (is_word : codepoint -> bool) (title : str)
  : str :=
  word_chars is_word (firstn 15 title).

(** A category in upper case with underscores for its spaces. *)
Definition normalized (upper_char : codepoint -> str) (category : str) : str :=
  map (fun c => if N.eqb c 32 then 95%N else c) (flat_map upper_char category).

(** The filename of an article's image. *)
Definition image_filename (env : Env) (category title timestamp : str) : str :=
  normalized (upper_char env) category ++ u "_"
  ++ sanitized_title_prefix (is_word env) title
  ++ u "_" ++ timestamp ++ u ".jpg".

(** What every [str.upper] does: a character that [upper] produces is in
    upper case already, and so is the underscore. *)
Definition upper_settled (upper_char : codepoint -> str) : Prop :=
  (forall c d, In d (upper_char c) -> upper_char d = [d])
  /\ upper_char (chr "_") = [chr "_"].

(** What every [str.upper] does with the separator of paths: the slash stays
    a slash, and no other character yields nothing, or something that starts
    with a slash. *)
Definition upper_keeps_slash (upper_char : codepoint -> str) : Prop :=
  upper_char (chr "/") = [chr "/"]
  /\ forall c, c <> chr "/" ->
       exists d rest, upper_char c = d :: rest /\ d <> chr "/".

End Spec.


(** ** Polls of a page *)

(** The number of article cards the page shows at the [i]-th poll made from
    state [st] on. *)
Definition poll_count (env : Env) (st : State) (i : nat) : nat :=
  length (polls env (polled st + i)).

(** An article can be processed to the end when title and summary are
    there. *)
Definition processable (article : Article) : bool :=
  match h3_stream_item_title article, p_stream_item_summary article with
  | Some _, Some _ => true
  | _, _ => false
  end.

(** A record carries the title and the summary of an article. *)
Definition record_of (article : Article) (news_item : NewsItem.t) : Prop :=
  h3_stream_item_title article = Some {| text := NewsItem.title news_item |}
  /\ p_stream_item_summary article = Some {| text := NewsItem.description news_item |}.

(** The state after one pass of the loader's loop up to the comparison:
    scrolled, waited, polled, and the count logged. *)
Definition after_poll (env : Env) (st : State) : State :=
  {| polled := S (polled st);
     dirs := dirs st;
     files := files st;
     trace :=
       trace st
       ++ [ExecuteJavascript "window.scrollBy(0, document.body.scrollHeight/3);";
           Sleep 4;
           GetWebelements "css:li.stream-item";
           Logged INFO (LoadedArticles (length (polls env (polled st))))] |}.

(** The state after one more call or log line. *)
Definition did (e : event) (st : State) : State :=
  {| polled := polled st; dirs := dirs st; files := files st;
     trace := trace st ++ [e] |}.

Definition logged (lv : level) (msg : log_msg) (st : State) : State :=
  did (Logged lv msg) st.

(** The state with one more file, if it is not there yet. *)
Definition with_file (path : str) (st : State) : State :=
  {| polled := polled st; dirs := dirs st;
     files := if string_in path (files st) then files st
              else files st ++ [path];
     trace := trace st |}.

(** ** Sample worlds *)

(** The tables of Unicode on the code points below 256 (Latin-1), and for
    the capital I with a dot (304), whose lower case has two characters.  The
    texts of the samples have no other characters. *)
Definition latin1_upper_char (c : codepoint) : str :=
  if ((97 <=? c) && (c <=? 122))%N then [(c - 32)%N]
  else if (c =? 181)%N then [924%N]
  else if (c =? 223)%N then [83%N; 83%N]
  else if ((224 <=? c) && (c <=? 254) && negb (c =? 247))%N then [(c - 32)%N]
  else if (c =? 255)%N then [376%N]
  else [c].

Definition latin1_lower_char (c : codepoint) : str :=
  if ((65 <=? c) && (c <=? 90))%N then [(c + 32)%N]
  else if ((192 <=? c) && (c <=? 222) && negb (c =? 215))%N then [(c + 32)%N]
  else if (c =? 304)%N then [105%N; 775%N]
  else [c].

Definition latin1_lower (s : str) : str := flat_map latin1_lower_char s.

Definition latin1_is_word (c : codepoint) : bool :=
  (((48 <=? c) && (c <=? 57)) || ((65 <=? c) && (c <=? 90)) || (c =? 95)
   || ((97 <=? c) && (c <=? 122))
   || (c =? 170) || (c =? 178) || (c =? 179) || (c =? 181) || (c =? 185)
   || (c =? 186) || ((188 <=? c) && (c <=? 190))
   || ((192 <=? c) && (c <=? 255) && negb (c =? 215) && negb (c =? 247)))%N.

Definition card (k : nat) : Article :=
  {| h3_stream_item_title := Some {| text := N.of_nat (65 + k) :: u " wins" |};
     p_stream_item_summary := Some {| text := u "Summary" |};
     img := None |}.

Definition cards (n : nat) : list Article := map card (seq 0 n).

(** A site without category controls whose [i]-th poll shows [batch i]. *)
Definition site (batch : nat -> list Article) : Env :=
  {| upper_char := latin1_upper_char;
     str_lower := latin1_lower;
     is_word := latin1_is_word;
     utcnow := u "20240820153000";
     strftime_date := u "2024-08-20";
     report_time := u "2024-08-20 15:31:00 UTC";
     is_element_visible := fun _ => false;
     heading_appears := true;
     polls := batch;
     urlretrieve := fun url _ =>
       if Py.startswith (u "https://") url then None
       else Some (URLError "unknown url type");
     urlretrieve_wrote := fun _ _ => false;
     to_excel := fun _ => None;
     open_for_writing := fun _ => None |}.

Definition page (counts : nat -> nat) : Env := site (fun i => cards (counts i)).

(** Counts 0, 1, 2, ...: one more card at every poll. *)
Definition slow_start : Env := page (fun i => i).

(** Counts 5, 3, 5, 3, ...: the page keeps dropping and restoring cards. *)
Definition flicker : Env := page (fun i => if Nat.even i then 5 else 3).

(** Counts 2, 2, 5, 5, 5, ... *)
Definition two_stalls : Env := page (fun i => if (i <? 2)%nat then 2 else 5).

(** Counts 7, 14, 21, 28, ... *)
Definition sevens : Env := page (fun i => 7 * (i + 1)).

(** Counts 4, 9, 9, 9, ... *)
Definition nine : Env := page (fun i => if (i =? 0)%nat then 4 else 9).

Definition scraper_of (category : str) : NewsScraper :=
  {| site_url := u "https://news.yahoo.com";
     search_phrase := u "election";
     category := category;
     headless := true;
     timestamp := u "20240820153000";
     output_dir :=
       u "output/" ++ category_prefix (site (fun _ => [])) category
       ++ u "_20240820153000";
     images_dir :=
       u "output/" ++ category_prefix (site (fun _ => [])) category
       ++ u "_20240820153000/images" |}.

Definition config_of (category : str) : Config.t :=
  {| Config.site_url := u "https://news.yahoo.com";
     Config.search_phrase := u "election";
     Config.category := category;
     Config.headless := None |}.

Definition untitled : Article :=
  {| h3_stream_item_title := None;
     p_stream_item_summary := Some {| text := u "Summary" |};
     img := None |}.

Definition no_summary : Article :=
  {| h3_stream_item_title := Some {| text := u "Storm hits coast" |};
     p_stream_item_summary := None;
     img := Some (Some (u "https://s.yimg.com/storm.jpg")) |}.

(** Five cards, the third without a title element, at every poll. *)
Definition five_cards : list Article := [card 0; card 1; untitled; card 3; card 4].

(** ** Counting what a run does *)

(** How many events of a trace are of the kind [p]. *)
Definition count_events (p : event -> bool) (l : list event) : nat :=
  length (filter p l).

Definition is_close (e : event) : bool :=
  match e with CloseAllBrowsers => true | _ => false end.

Definition is_request (e : event) : bool :=
  match e with Urlretrieve _ _ => true | _ => false end.

Definition is_poll (e : event) : bool :=
  match e with GetWebelements _ => true | _ => false end.

(** The events of the report step: the two files and their log lines. *)
Definition is_report (e : event) : bool :=
  match e with
  | DataFrameToExcel _ _ => true
  | WroteScrapeLog _ _ _ _ _ _ _ => true
  | Logged _ (DataSavedTo _) => true
  | Logged _ (ScrapingLogSavedTo _) => true
  | Logged _ (FailedToSaveScrapingLog _) => true
  | _ => false
  end.

Definition is_article_error (e : event) : bool :=
  match e with Logged ERROR (ErrorExtractingArticle _) => true | _ => false end.

(** Whatever the state it starts in and however it ends, the computation [m]
    only appends to the trace, and appends at most [n] events of kind [p]. *)
Definition emits_within {A} (p : event -> bool) (n : nat) (m : M A) : Prop :=
  forall st, exists added,
    trace (snd (m st)) = trace st ++ added
    /\ count_events p added <= n.

(** The seconds of [time.sleep] in a trace. *)
Fixpoint seconds_slept (l : list event) : nat :=
  match l with
  | [] => 0
  | Sleep n :: rest => n + seconds_slept rest
  | _ :: rest => seconds_slept rest
  end.

(** The computation ended with a normal return. *)
Definition returned {A} (r : res A) : bool :=
  match r with Ok _ => true | _ => false end.

(** A page with the same batch of cards at every poll, and a network on
    which every download fails, some of them behind a file they began. *)
Definition offline (batch : list Article) : Env :=
  {| upper_char := latin1_upper_char;
     str_lower := latin1_lower;
     is_word := latin1_is_word;
     utcnow := u "20240820153000";
     strftime_date := u "2024-08-20";
     report_time := u "2024-08-20 15:31:00 UTC";
     is_element_visible := fun locator =>
       Py.eqb locator (u "xpath://span[text()='Politics']");
     heading_appears := false;
     polls := fun _ => batch;
     urlretrieve := fun _ _ => Some (URLError "no route to host");
     urlretrieve_wrote := fun url _ => Py.startswith (u "https://") url;
     to_excel := fun _ => Some (OSError "disk full");
     open_for_writing := fun _ => Some (OSError "disk full") |}.

(** The site [site batch] with the control of the category "Politics". *)
Definition politics (batch : nat -> list Article) : Env :=
  {| upper_char := latin1_upper_char;
     str_lower := latin1_lower;
     is_word := latin1_is_word;
     utcnow := u "20240820153000";
     strftime_date := u "2024-08-20";
     report_time := u "2024-08-20 15:31:00 UTC";
     is_element_visible := fun locator =>
       Py.eqb locator (u "xpath://span[text()='Politics']");
     heading_appears := true;
     polls := batch;
     urlretrieve := fun url _ =>
       if Py.startswith (u "https://") url then None
       else Some (URLError "unknown url type");
     urlretrieve_wrote := fun _ _ => false;
     to_excel := fun _ => None;
     open_for_writing := fun path =>
       if Py.startswith (u "output/POLITICS") path then Some (OSError "read-only")
       else None |}.

Definition pictured (title src : str) : Article :=
  {| h3_stream_item_title := Some {| text := title |};
     p_stream_item_summary :=
       Some {| text := u "Election night: the election results" |};
     img := Some (Some src) |}.

(** ** Tactics *)

(** Unfolds the monad down to states and results. *)
Ltac run :=
  cbv beta delta [bind ret raise out_of_fuel try_except info error emit
                  create_file os_makedirs os_path_exists get_webelements] iota;
  cbn [fst snd trace polled dirs files].

(** Finds an event in an explicit trace. *)
Ltac find_event := repeat first [left; reflexivity | right].

(** * Properties *)

(** ** Characters and strings *)

Example count_skips_overlap : Py.count (u "aaaa") (u "aa") = 2.
Proof. reflexivity. Qed.

Example count_of_empty : Py.count (u "abc") [] = 4.
Proof. reflexivity. Qed.

Example re_sub_nonword_runs :
  Py.re_sub_nonword latin1_is_word (u "Hi, there -- you_2!") = u "Hithereyou_2".
Proof. reflexivity. Qed.

Example os_path_join_relative :
  Py.os_path_join (u "output") (u "US_2024") = u "output/US_2024".
Proof. reflexivity. Qed.

Example os_path_join_absolute :
  Py.os_path_join (u "output") (u "/TMP_2024") = u "/TMP_2024".
Proof. reflexivity. Qed.

Example category_prefix_of_todays_news :
  category_prefix slow_start (u "Today's news") = u "TODAY'S_NEWS".
Proof. reflexivity. Qed.

(** [straße] has six characters and its upper case seven. *)
Example category_prefix_grows :
  category_prefix slow_start (u "stra" ++ [223%N] ++ u "e") = u "STRASSE".
Proof. reflexivity. Qed.

Lemma eqb_eq (a b : str) : Py.eqb a b = true <-> a = b.
Proof.
  revert b. induction a as [|x a IH]; intros [|y b]; simpl;
    try (split; [discriminate|discriminate]); [tauto|].
  rewrite andb_true_iff, N.eqb_eq, IH. split.
  - intros [-> ->]. reflexivity.
  - intros H. inversion H. auto.
Qed.

Lemma eqb_refl (a : str) : Py.eqb a a = true.
Proof. now apply eqb_eq. Qed.


(** ** The scan finds as many non-overlapping occurrences as there are *)

Section Scan.

Variable phrase : str.











End Scan.



(** ** Case on the ASCII range *)






(** ** Sanitising a title *)

Lemma sub_nonword_skip (is_word : codepoint -> bool) (s : str) : forall skip,
  skip <= Py.nonword_run is_word s ->
  Py.sub_nonword_from is_word skip s = Spec.word_chars is_word s.
Proof.
  unfold Spec.word_chars.
  induction s as [|c s IH]; intros skip Hskip; [reflexivity|].
  cbn [Py.sub_nonword_from filter Py.nonword_run] in *.
  destruct (is_word c) eqn:Hc.
  - assert (skip = 0) by lia. subst skip. f_equal. apply IH. lia.
  - destruct skip as [|k]; apply IH; lia.
Qed.

Lemma re_sub_nonword_word_chars (is_word : codepoint -> bool) (s : str) :
  Py.re_sub_nonword is_word s = Spec.word_chars is_word s.
Proof. apply sub_nonword_skip. lia. Qed.

Lemma slice_to_firstn (n : nat) (s : str) : Py.slice_to n s = firstn n s.
Proof.
  revert s. induction n as [|n IH]; intros [|c s]; reflexivity.
Qed.

Lemma title_sanitized_spec (is_word : codepoint -> bool) (title : str) :
  Py.re_sub_nonword is_word (Py.slice_to 15 title)
  = Spec.sanitized_title_prefix is_word title.
Proof.
  unfold Spec.sanitized_title_prefix.
  now rewrite re_sub_nonword_word_chars, slice_to_firstn.
Qed.

Lemma category_prefix_normalized (env : Env) (category : str) :
  category_prefix env category = Spec.normalized (upper_char env) category.
Proof. reflexivity. Qed.

Lemma append_nonempty (a b : str) : b <> [] -> a ++ b <> [].
Proof. intros Hb H. apply app_eq_nil in H. tauto. Qed.

Lemma image_filename_nonempty (env : Env) (c t ts : str) :
  Spec.image_filename env c t ts <> [].
Proof.
  unfold Spec.image_filename. apply append_nonempty. discriminate.
Qed.

(** ** Normalising a category *)

Lemma replace_no_space (s : str) : ~ In (chr " ") (Py.replace (chr " ") (chr "_") s).
Proof.
  unfold Py.replace. rewrite in_map_iff. intros (c & Hc & _).
  destruct (N.eqb_spec c (chr " ")) as [E|E]; [discriminate|congruence].
Qed.

Lemma replace_without (s : str) :
  ~ In (chr " ") s -> Py.replace (chr " ") (chr "_") s = s.
Proof.
  unfold Py.replace. induction s as [|c s IH]; intros H; [reflexivity|].
  cbn [map]. rewrite IH by (intros Hs; apply H; right; exact Hs).
  destruct (N.eqb_spec c (chr " ")) as [E|E]; [|reflexivity].
  exfalso. apply H. left. auto.
Qed.

Lemma upper_fixed (upper_char : codepoint -> str) (s : str) :
  (forall d, In d s -> upper_char d = [d]) -> Py.upper upper_char s = s.
Proof.
  unfold Py.upper. induction s as [|c s IH]; intros H; [reflexivity|].
  cbn [flat_map]. rewrite (H c) by (left; reflexivity).
  rewrite IH by (intros d Hd; apply H; right; exact Hd). reflexivity.
Qed.

Lemma in_upper (upper_char : codepoint -> str) (s : str) (d : codepoint) :
  In d (Py.upper upper_char s) -> exists c, In c s /\ In d (upper_char c).
Proof. unfold Py.upper. rewrite in_flat_map. auto. Qed.

(** Upper-casing and replacing once more changes nothing. *)
Lemma category_prefix_fixed (env : Env) (s : str) :
  Spec.upper_settled (upper_char env) ->
  category_prefix env (category_prefix env s) = category_prefix env s.
Proof.
  intros [Hset Hunder]. unfold category_prefix at 1.
  rewrite upper_fixed.
  - apply replace_without, replace_no_space.
  - intros d Hd. unfold category_prefix, Py.replace in Hd.
    apply in_map_iff in Hd as (c & Hc & Hin).
    destruct (N.eqb c (chr " ")).
    + subst d. exact Hunder.
    + subst d. apply in_upper in Hin as (c0 & _ & Hin).
      exact (Hset _ _ Hin).
Qed.

(** The tables of the samples are as those of every interpreter. *)
Lemma latin1_upper_settled : Spec.upper_settled latin1_upper_char.
Proof.
  assert (Hfix : forall d,
             ~ (97 <= d <= 122)%N -> d <> 181%N -> d <> 223%N ->
             ~ (224 <= d <= 254 /\ d <> 247)%N -> d <> 255%N ->
             latin1_upper_char d = [d]).
  { intros d H1 H2 H3 H4 H5. unfold latin1_upper_char.
    destruct (N.leb_spec 97 d), (N.leb_spec d 122); cbn [andb]; try lia;
      destruct (N.eqb_spec d 181), (N.eqb_spec d 223), (N.eqb_spec d 255);
      try lia;
      destruct (N.leb_spec 224 d), (N.leb_spec d 254), (N.eqb_spec d 247);
      cbn [andb negb]; try lia; reflexivity. }
  split; [|reflexivity].
  intros c d. unfold latin1_upper_char at 1.
  destruct (N.leb_spec 97 c), (N.leb_spec c 122); cbn [andb];
    destruct (N.eqb_spec c 181), (N.eqb_spec c 223), (N.eqb_spec c 255);
    destruct (N.leb_spec 224 c), (N.leb_spec c 254), (N.eqb_spec c 247);
    cbn [andb negb]; cbn [In]; intros Hd;
    repeat match goal with H : _ \/ _ |- _ => destruct H end;
    try contradiction; try lia; subst d; try reflexivity; apply Hfix; lia.
Qed.

Lemma latin1_upper_keeps_slash : Spec.upper_keeps_slash latin1_upper_char.
Proof.
  split; [reflexivity|].
  intros c Hc. unfold latin1_upper_char. change (chr "/") with 47%N in *.
  destruct (N.leb_spec 97 c), (N.leb_spec c 122); cbn [andb];
    destruct (N.eqb_spec c 181), (N.eqb_spec c 223), (N.eqb_spec c 255);
    destruct (N.leb_spec 224 c), (N.leb_spec c 254), (N.eqb_spec c 247);
    cbn [andb negb]; eexists; eexists; (split; [reflexivity|lia]).
Qed.

(** ** Running the methods *)

(** The one shape of a run of [download_image]: the placeholder at once for
    a missing address, otherwise one request for the file named by the
    specification, answered by that name or, behind an error line, by the
    placeholder. *)
Lemma download_image_run (env : Env) (self : NewsScraper)
  (image_url : option str) (title : str) (st : State) :
  let image_filename :=
    Spec.image_filename env (category self) title (timestamp self) in
  let image_path := Py.os_path_join (images_dir self) image_filename in
  let request := Urlretrieve (url_text image_url) image_path in
  download_image env self image_url title st =
  if no_url image_url then (Ok placeholder, st)
  else
    match urlretrieve env (url_text image_url) image_path with
    | Some e =>
        (Ok placeholder,
         logged ERROR (FailedToDownloadImage e)
           (if urlretrieve_wrote env (url_text image_url) image_path
            then with_file image_path (did request st)
            else did request st))
    | None =>
        (Ok image_filename,
         {| polled := polled st; dirs := dirs st;
            files := if string_in image_path (files st) then files st
                     else files st ++ [image_path];
            trace := (trace st ++ [request])
                     ++ [Logged INFO (DownloadedImageTo image_path)] |})
    end.
Proof.
  unfold download_image, Spec.image_filename.
  rewrite title_sanitized_spec, category_prefix_normalized.
  destruct (no_url image_url); [reflexivity|].
  unfold urllib_urlretrieve. run.
  destruct (urlretrieve env _ _); [|reflexivity].
  destruct (urlretrieve_wrote env _ _); reflexivity.
Qed.

Lemma string_in_In (x : str) (l : list str) : string_in x l = true -> In x l.
Proof.
  unfold string_in. rewrite existsb_exists. intros (y & Hy & E).
  apply eqb_eq in E. now subst.
Qed.

Lemma In_created (x : str) (l : list str) :
  In x (if string_in x l then l else l ++ [x]).
Proof.
  destruct (string_in x l) eqn:E; [now apply string_in_In|].
  apply in_or_app. right. left. reflexivity.
Qed.

Lemma In_kept (x y : str) (l : list str) :
  In x l -> In x (if string_in y l then l else l ++ [y]).
Proof. intros H. destruct (string_in y l); [assumption|apply in_or_app; now left]. Qed.

(** C4: [download_image] returns normally on every input, with a non-empty
    filename that is the placeholder or the name of a file that is in the
    images directory by then; for an absent or empty address that filename
    is the placeholder and nothing at all is done (no request is made); and
    when the fetch or the write raises, the error is caught and logged and
    the placeholder is returned, whatever the failed download left on the
    disk. *)
Theorem download_image_never_fails (env : Env) (self : NewsScraper)
  (image_url : option str) (title : str) (st : State) :
  exists (filename : str) (st' : State),
    download_image env self image_url title st = (Ok filename, st')
    /\ filename <> []
    /\ (filename = u "placeholder.png"
        \/ In (Py.os_path_join (images_dir self) filename) (files st'))
    /\ (image_url = None \/ image_url = Some [] ->
        filename = u "placeholder.png" /\ st' = st)
    /\ (forall e,
          no_url image_url = false ->
          urlretrieve env (url_text image_url)
            (Py.os_path_join (images_dir self)
               (Spec.image_filename env (category self) title (timestamp self)))
          = Some e ->
          filename = u "placeholder.png"
          /\ In (Logged ERROR (FailedToDownloadImage e)) (trace st')).
Proof.
  rewrite download_image_run. cbv zeta.
  destruct (no_url image_url) eqn:Hurl.
  - exists placeholder, st.
    split; [reflexivity|]. split; [discriminate|]. split; [left; reflexivity|].
    split; [auto|].
    intros e H. discriminate.
  - destruct (urlretrieve env _ _) as [e|] eqn:Hfetch.
    + eexists; eexists. split; [reflexivity|].
      split; [discriminate|]. split; [left; reflexivity|]. split.
      * intros [H|H]; subst image_url; discriminate.
      * intros e' _ He'. inversion He'; subst e'.
        split; [reflexivity|].
        cbn [logged did trace]. apply in_or_app. right. left. reflexivity.
    + eexists; eexists. split; [reflexivity|].
      split; [apply image_filename_nonempty|].
      split; [right; cbn [files]; apply In_created|]. split.
      * intros [H|H]; subst image_url; discriminate.
      * intros e' _ He'. discriminate.
Qed.

(** ** The loader's loop *)

Lemma app_four {A} (l : list A) (a b c d : A) :
  ((((l ++ [a]) ++ [b]) ++ [c]) ++ [d] = l ++ [a; b; c; d]).
Proof. now rewrite <- !app_assoc. Qed.

(** One pass of the loop. *)
Lemma scroll_loop_pass (env : Env) (fuel : nat) (articles : list Article)
  (previous_count : nat) (st : State) :
  length articles < 20 ->
  scroll_loop env (S fuel) articles previous_count st =
  if (length (polls env (polled st)) =? previous_count)%nat
  then (Ok (polls env (polled st)),
        logged INFO NoMoreArticlesLoaded (after_poll env st))
  else scroll_loop env fuel (polls env (polled st))
         (length (polls env (polled st))) (after_poll env st).
Proof.
  intros Hlen. apply Nat.ltb_lt in Hlen.
  cbn [scroll_loop]. rewrite Hlen. run.
  unfold after_poll, logged, did. cbn [trace polled dirs files].
  rewrite app_four.
  destruct (length (polls env (polled st)) =? previous_count)%nat; reflexivity.
Qed.

Lemma scroll_loop_done (env : Env) (fuel : nat) (articles : list Article)
  (previous_count : nat) (st : State) :
  20 <= length articles ->
  scroll_loop env fuel articles previous_count st = (Ok articles, st).
Proof.
  intros Hlen. apply Nat.ltb_ge in Hlen.
  destruct fuel; cbn [scroll_loop]; rewrite Hlen; reflexivity.
Qed.

Lemma poll_count_after (env : Env) (st : State) (i : nat) :
  poll_count env (after_poll env st) i = poll_count env st (S i).
Proof. unfold poll_count. cbn [after_poll polled]. f_equal. f_equal. lia. Qed.

(** The loop makes polls until one either shows 20 cards or shows as many as
    the poll before it; with fuel for them it returns that poll. *)
Lemma scroll_loop_stops (env : Env) : forall n fuel articles previous_count st,
  length articles < 20 ->
  n < fuel ->
  (forall i, i < n ->
     poll_count env st i < 20
     /\ poll_count env st i <> match i with O => previous_count
                                | S j => poll_count env st j end) ->
  (20 <= poll_count env st n
   \/ poll_count env st n = match n with O => previous_count
                            | S j => poll_count env st j end) ->
  exists st',
    scroll_loop env fuel articles previous_count st
    = (Ok (polls env (polled st + n)), st')
    /\ polled st' = polled st + S n.
Proof.
  induction n as [|n IH]; intros fuel articles previous_count st Hlen Hfuel Hgo Hstop.
  - destruct fuel as [|fuel]; [lia|].
    rewrite scroll_loop_pass by assumption.
    unfold poll_count in Hstop. rewrite Nat.add_0_r in *.
    destruct (Nat.eqb_spec (length (polls env (polled st))) previous_count) as [E|E].
    + eexists. split; [reflexivity|]. cbn [logged did after_poll polled]. lia.
    + destruct Hstop as [Hstop|Hstop]; [|contradiction].
      rewrite scroll_loop_done by assumption.
      eexists. split; [reflexivity|]. cbn [after_poll polled]. lia.
  - destruct fuel as [|fuel]; [lia|].
    rewrite scroll_loop_pass by assumption.
    destruct (Hgo 0 ltac:(lia)) as [H0 H0'].
    unfold poll_count in H0, H0'. rewrite Nat.add_0_r in H0, H0'.
    apply Nat.eqb_neq in H0'. rewrite H0'.
    destruct (IH fuel (polls env (polled st)) (length (polls env (polled st)))
                (after_poll env st)) as (st' & Hrun & Hpolled).
    + exact H0.
    + lia.
    + intros i Hi. rewrite !poll_count_after.
      destruct (Hgo (S i) ltac:(lia)) as [Ha Hb]. split; [exact Ha|].
      destruct i as [|j]; [|rewrite poll_count_after; exact Hb].
      unfold poll_count in Hb at 2. rewrite Nat.add_0_r in Hb. exact Hb.
    + rewrite poll_count_after.
      destruct n as [|j]; [|rewrite poll_count_after; exact Hstop].
      unfold poll_count in Hstop at 2 3. rewrite Nat.add_0_r in Hstop. exact Hstop.
    + exists st'. split.
      * rewrite Hrun. cbn [after_poll polled]. do 3 f_equal. lia.
      * rewrite Hpolled. cbn [after_poll polled]. lia.
Qed.

Lemma scroll_and_load_unfold (env : Env) (fuel : nat) (st : State) :
  scroll_and_load env fuel st =
  match scroll_loop env fuel [] 0 (logged INFO ScrollingAndLoading st) with
  | (Ok articles, st') => (Ok (firstn 20 articles), st')
  | (Raise e, st') => (Raise e, st')
  | (OutOfFuel, st') => (OutOfFuel, st')
  end.
Proof. reflexivity. Qed.

Lemma poll_count_logged (env : Env) lv msg (st : State) (i : nat) :
  poll_count env (logged lv msg st) i = poll_count env st i.
Proof. reflexivity. Qed.

(** On a page whose count never shrinks, every pass that does not end the
    loop adds a card, so 20 passes are enough. *)
Lemma scroll_loop_returns (env : Env) : forall fuel articles previous_count st,
  (forall i, poll_count env st i <= poll_count env st (S i)) ->
  length articles = previous_count ->
  previous_count <= poll_count env st 0 ->
  20 <= previous_count + fuel ->
  exists result st',
    scroll_loop env fuel articles previous_count st = (Ok result, st').
Proof.
  induction fuel as [|fuel IH]; intros articles previous_count st Hmono Hlen Hprev Hfuel.
  - rewrite scroll_loop_done by lia. eauto.
  - destruct (Nat.lt_ge_cases (length articles) 20) as [Hlt|Hge].
    + rewrite scroll_loop_pass by assumption.
      unfold poll_count in Hprev. rewrite Nat.add_0_r in Hprev.
      destruct (Nat.eqb_spec (length (polls env (polled st))) previous_count) as [E|E].
      * eauto.
      * apply IH.
        -- intros i. rewrite !poll_count_after. apply Hmono.
        -- reflexivity.
        -- rewrite poll_count_after. specialize (Hmono 0).
           unfold poll_count in Hmono at 1. rewrite Nat.add_0_r in Hmono. exact Hmono.
        -- lia.
    + rewrite scroll_loop_done by assumption. eauto.
Qed.

(** Below any bound a sequence either stays under 20 or has a first index
    at which it reaches 20. *)
Lemma first_reaching (f : nat -> nat) (bound : nat) :
  (forall i, i < bound -> f i < 20)
  \/ (exists n, n < bound /\ 20 <= f n /\ forall i, i < n -> f i < 20).
Proof.
  induction bound as [|bound [IH|(n & Hn & H20 & Hbelow)]].
  - left. intros i Hi. lia.
  - destruct (Nat.lt_ge_cases (f bound) 20) as [Hlt|Hge].
    + left. intros i Hi.
      destruct (Nat.eq_dec i bound) as [->|Hne]; [assumption|apply IH; lia].
    + right. exists bound. repeat split; [lia|assumption|assumption].
  - right. exists n. repeat split; [lia|assumption|assumption].
Qed.

Lemma cards_length (n : nat) : length (cards n) = n.
Proof. unfold cards. now rewrite length_map, length_seq. Qed.

Lemma poll_count_page (counts : nat -> nat) (i : nat) :
  poll_count (page counts) initial_state i = counts i.
Proof. unfold poll_count, page, site. cbn [polls polled initial_state]. apply cards_length. Qed.


(** On a page that never shows 20 cards and never shows the same number
    twice in a row, the loop has no way out. *)
Lemma scroll_loop_never_returns (env : Env) :
  forall fuel articles previous_count st,
    (forall i, poll_count env st i < 20) ->
    (forall i, poll_count env st i <> poll_count env st (S i)) ->
    length articles < 20 ->
    previous_count <> poll_count env st 0 ->
    fst (scroll_loop env fuel articles previous_count st) = OutOfFuel.
Proof.
  induction fuel as [|fuel IH];
    intros articles previous_count st Hsmall Hchange Hlen Hprev.
  - cbn [scroll_loop]. apply Nat.ltb_lt in Hlen. rewrite Hlen. reflexivity.
  - rewrite scroll_loop_pass by assumption.
    pose proof (Hsmall 0) as H0. pose proof (Hchange 0) as H1.
    unfold poll_count in Hprev, H0, H1 at 1. rewrite Nat.add_0_r in *.
    destruct (Nat.eqb_spec (length (polls env (polled st))) previous_count) as [E|E];
      [congruence|].
    apply IH.
    + intros i. rewrite poll_count_after. apply Hsmall.
    + intros i. rewrite !poll_count_after. apply Hchange.
    + exact H0.
    + rewrite poll_count_after. exact H1.
Qed.

(** C1, as the code has it, on a browser that answers its calls: whenever
    [scroll_and_load] returns, it returns at most 20 cards.  It does return,
    within 20 passes, on every page whose count never shrinks from one poll
    to the next; it never returns on a page whose first poll shows a card,
    whose counts all stay below 20 and whose count differs at every poll
    from that of the poll before.  On a page whose first poll shows a card
    and whose count grows at every poll, it stops at the first poll that
    shows 20 cards or more and returns the first 20 of them.  On a page
    whose first poll shows a card and whose count, under 20 and different
    from poll to poll until then, is [k < 20] at two polls in a row, it
    stops at the second of the two and returns its [k] cards. *)
Theorem scroll_and_load_contract (env : Env) (st : State) :
  (forall fuel articles st',
      scroll_and_load env fuel st = (Ok articles, st') -> length articles <= 20)
  /\ ((forall i, poll_count env st i <= poll_count env st (S i)) ->
      forall fuel, 20 <= fuel ->
      exists articles st', scroll_and_load env fuel st = (Ok articles, st'))
  /\ (0 < poll_count env st 0 ->
      (forall i, poll_count env st i < 20) ->
      (forall i, poll_count env st i <> poll_count env st (S i)) ->
      forall fuel, fst (scroll_and_load env fuel st) = OutOfFuel)
  /\ (0 < poll_count env st 0 ->
      (forall i, poll_count env st i < poll_count env st (S i)) ->
      exists n,
        (forall i, i < n -> poll_count env st i < 20)
        /\ 20 <= poll_count env st n
        /\ forall fuel, 20 <= fuel ->
           exists st',
             scroll_and_load env fuel st
             = (Ok (firstn 20 (polls env (polled st + n))), st')
             /\ polled st' = polled st + S n)
  /\ (forall n k,
        k < 20 ->
        poll_count env st n = k ->
        poll_count env st (S n) = k ->
        0 < poll_count env st 0 ->
        (forall i, i < n ->
           poll_count env st i < 20
           /\ poll_count env st i <> poll_count env st (S i)) ->
        forall fuel, S n < fuel ->
        exists st',
          scroll_and_load env fuel st = (Ok (polls env (polled st + S n)), st')
          /\ length (polls env (polled st + S n)) = k
          /\ polled st' = polled st + S (S n)).
Proof.
  repeat apply conj.
  - intros fuel articles st'. rewrite scroll_and_load_unfold.
    destruct (scroll_loop env fuel [] 0 _) as [[a|e|] st1];
      try discriminate.
    pose proof (firstn_le_length 20 a) as Hle.
    remember (firstn 20 a) as first20 eqn:E. clear E.
    intros H. injection H as Ha _. subst articles. exact Hle.
  - intros Hmono fuel Hfuel. rewrite scroll_and_load_unfold.
    destruct (scroll_loop_returns env fuel [] 0 (logged INFO ScrollingAndLoading st))
      as (result & st' & Hrun); [exact Hmono|reflexivity|lia|lia|].
    rewrite Hrun. eauto.
  - intros Hfirst Hsmall Hchange fuel. rewrite scroll_and_load_unfold.
    pose proof (scroll_loop_never_returns env fuel [] 0
                  (logged INFO ScrollingAndLoading st)) as Hloop.
    specialize (Hloop Hsmall Hchange ltac:(simpl; lia)
                  ltac:(rewrite poll_count_logged; lia)).
    destruct (scroll_loop env fuel [] 0 _) as [[a|e|] st1];
      simpl in Hloop; try discriminate. reflexivity.
  - intros Hfirst Hgrow.
    assert (Hlow : forall i, i < poll_count env st i).
    { induction i as [|i IHi]; [exact Hfirst|]. specialize (Hgrow i). lia. }
    destruct (first_reaching (poll_count env st) 20)
      as [Hnone|(n & Hn & H20 & Hbelow)].
    { specialize (Hnone 19 ltac:(lia)). specialize (Hlow 19). lia. }
    exists n. split; [exact Hbelow|]. split; [exact H20|].
    intros fuel Hfuel. rewrite scroll_and_load_unfold.
    destruct (scroll_loop_stops env n fuel [] 0 (logged INFO ScrollingAndLoading st))
      as (st' & Hrun & Hpolled).
    + simpl. lia.
    + lia.
    + intros i Hi. split; [apply Hbelow, Hi|].
      destruct i as [|j]; [rewrite poll_count_logged; lia|].
      specialize (Hgrow j). rewrite !poll_count_logged. lia.
    + left. exact H20.
    + rewrite Hrun. exists st'. split; [reflexivity|exact Hpolled].
  - intros n k Hk Hn HSn Hfirst Hgo fuel Hfuel. rewrite scroll_and_load_unfold.
    destruct (scroll_loop_stops env (S n) fuel [] 0 (logged INFO ScrollingAndLoading st))
      as (st' & Hrun & Hpolled).
    + simpl. lia.
    + lia.
    + intros i Hi. rewrite !poll_count_logged.
      destruct i as [|j].
      * split; [|lia]. destruct n as [|n']; [lia|]. apply (Hgo 0). lia.
      * rewrite poll_count_logged.
        destruct (Nat.eq_dec (S j) n) as [E|E].
        -- subst n. split; [lia|]. destruct (Hgo j ltac:(lia)) as [_ Hne]. congruence.
        -- destruct (Hgo (S j) ltac:(lia)) as [Hlt _]. split; [exact Hlt|].
           destruct (Hgo j ltac:(lia)) as [_ Hne]. congruence.
    + right. rewrite !poll_count_logged. congruence.
    + rewrite Hrun. cbn [logged did polled] in *.
      assert (Hlen : length (polls env (polled st + S n)) = k) by exact HSn.
      exists st'. rewrite firstn_all2 by lia. auto.
Qed.

(** C1 as stated fails in three ways.  On [slow_start] the count grows at
    every poll (0, 1, 2, ...), yet the loader stops after the first poll and
    returns no card, long before the count reaches 20.  On [two_stalls]
    (2, 2, 5, 5, ...) the count is 5 at two polls in a row, yet the loader
    returns 2 cards.  On [flicker] (5, 3, 5, 3, ...) the loader returns
    nothing at all, whatever the number of passes it is given. *)
Lemma scroll_and_load_as_stated_fails :
  ((forall i, poll_count slow_start initial_state i
              < poll_count slow_start initial_state (S i))
   /\ fst (scroll_and_load slow_start 25 initial_state) = Ok []
   /\ polled (snd (scroll_and_load slow_start 25 initial_state)) = 1)
  /\ (poll_count two_stalls initial_state 2 = 5
      /\ poll_count two_stalls initial_state 3 = 5
      /\ 5 < 20
      /\ fst (scroll_and_load two_stalls 25 initial_state) = Ok (cards 2))
  /\ (forall fuel, fst (scroll_and_load flicker fuel initial_state) = OutOfFuel).
Proof.
  split; [|split].
  - split; [|split; vm_compute; reflexivity].
    intros i. unfold slow_start. rewrite !poll_count_page. lia.
  - repeat split; try (vm_compute; reflexivity). lia.
  - intros fuel. rewrite scroll_and_load_unfold.
    assert (Hcount : forall i,
               poll_count flicker (logged INFO ScrollingAndLoading initial_state) i
               = if Nat.even i then 5 else 3).
    { intros i. rewrite poll_count_logged. unfold flicker. apply poll_count_page. }
    pose proof (scroll_loop_never_returns flicker fuel [] 0
                  (logged INFO ScrollingAndLoading initial_state)) as Hloop.
    specialize (Hloop
      ltac:(intros i; rewrite Hcount; destruct (Nat.even i); lia)
      ltac:(intros i; rewrite !Hcount, Nat.even_succ, <- Nat.negb_even;
            destruct (Nat.even i); simpl; lia)
      ltac:(simpl; lia)
      ltac:(rewrite Hcount; simpl; lia)).
    destruct (scroll_loop flicker fuel [] 0 _) as [[a|e|] st1];
      simpl in Hloop; try discriminate. reflexivity.
Qed.

(** The amended contract at work: on [sevens] (7, 14, 21, ...) the loader
    stops at a first poll of 20 cards or more, on [nine] (4, 9, 9, ...) at
    the second poll of 9 cards, and on [flicker] (5, 3, 5, 3, ...) never. *)
Lemma scroll_and_load_contract_witness :
  (exists n,
      (forall i, i < n -> poll_count sevens initial_state i < 20)
      /\ 20 <= poll_count sevens initial_state n
      /\ forall fuel, 20 <= fuel ->
         exists st',
           scroll_and_load sevens fuel initial_state
           = (Ok (firstn 20 (polls sevens (polled initial_state + n))), st')
           /\ polled st' = polled initial_state + S n)
  /\ (forall fuel, 2 < fuel ->
      exists st',
        scroll_and_load nine fuel initial_state
        = (Ok (polls nine (polled initial_state + 2)), st')
        /\ length (polls nine (polled initial_state + 2)) = 9
        /\ polled st' = polled initial_state + 3)
  /\ (forall fuel, fst (scroll_and_load flicker fuel initial_state) = OutOfFuel).
Proof.
  split; [|split].
  - apply (proj1 (proj2 (proj2 (proj2
             (scroll_and_load_contract sevens initial_state))))).
    + unfold sevens. rewrite poll_count_page. simpl. lia.
    + intros i. unfold sevens. rewrite !poll_count_page. lia.
  - apply (proj2 (proj2 (proj2 (proj2
             (scroll_and_load_contract nine initial_state)))) 1 9).
    + lia.
    + reflexivity.
    + reflexivity.
    + unfold nine. rewrite poll_count_page. simpl. lia.
    + intros i Hi. assert (i = 0) by lia. subst i.
      unfold nine. rewrite !poll_count_page. simpl. lia.
  - apply (proj1 (proj2 (proj2 (scroll_and_load_contract flicker initial_state)))).
    + unfold flicker. rewrite poll_count_page. simpl. lia.
    + intros i. unfold flicker. rewrite poll_count_page.
      destruct (Nat.even i); lia.
    + intros i. unfold flicker. rewrite !poll_count_page.
      rewrite Nat.even_succ, <- Nat.negb_even. destruct (Nat.even i); simpl; lia.
Defined.
(** C10: when the first poll shows no card, the loader returns the empty
    list after that one pass: one scroll, one pause, one query, and the
    count 0 found equal to the initial previous count 0. *)
Theorem scroll_and_load_first_poll_empty (env : Env) (st : State) (fuel : nat) :
  polls env (polled st) = [] ->
  exists st',
    scroll_and_load env (S fuel) st = (Ok [], st')
    /\ polled st' = S (polled st)
    /\ trace st' =
       (trace st
        ++ [Logged INFO ScrollingAndLoading;
            ExecuteJavascript "window.scrollBy(0, document.body.scrollHeight/3);";
            Sleep 4;
            GetWebelements "css:li.stream-item";
            Logged INFO (LoadedArticles 0);
            Logged INFO NoMoreArticlesLoaded]).
Proof.
  intros Hempty. rewrite scroll_and_load_unfold.
  rewrite scroll_loop_pass by (simpl; lia).
  cbn [logged did polled]. rewrite Hempty. cbn [length Nat.eqb firstn].
  eexists. split; [reflexivity|]. split; [reflexivity|].
  cbn [logged did after_poll trace polled]. rewrite Hempty.
  rewrite <- !app_assoc. reflexivity.
Qed.

Lemma scroll_and_load_first_poll_empty_witness :
  exists st',
    scroll_and_load slow_start 1 initial_state = (Ok [], st')
    /\ polled st' = 1
    /\ trace st' =
       [Logged INFO ScrollingAndLoading;
        ExecuteJavascript "window.scrollBy(0, document.body.scrollHeight/3);";
        Sleep 4;
        GetWebelements "css:li.stream-item";
        Logged INFO (LoadedArticles 0);
        Logged INFO NoMoreArticlesLoaded].
Proof.
  apply (scroll_and_load_first_poll_empty slow_start initial_state 0).
  reflexivity.
Defined.

(** ** Extraction *)

Lemma bind_ok {A B} (m : M A) (k : A -> M B) (st st1 : State) (a : A) :
  m st = (Ok a, st1) -> bind m k st = k a st1.
Proof. unfold bind. now intros ->. Qed.

Lemma bind_raise {A B} (m : M A) (k : A -> M B) (st st1 : State) (e : exn) :
  m st = (Raise e, st1) -> bind m k st = (Raise e, st1).
Proof. unfold bind. now intros ->. Qed.

Lemma emit_then {B} (e : event) (k : unit -> M B) (st : State) :
  bind (emit e) k st = k tt (did e st).
Proof. reflexivity. Qed.

Lemma ret_then {A B} (a : A) (k : A -> M B) (st : State) :
  bind (ret a) k st = k a st.
Proof. reflexivity. Qed.

Lemma extract_image_url_returns (article : Article) (st : State) :
  exists image_url st', extract_image_url article st = (Ok image_url, st').
Proof.
  unfold extract_image_url. run.
  destruct (img article); eauto.
Qed.

Lemma download_image_returns (env : Env) (self : NewsScraper)
  (image_url : option str) (title : str) (st : State) :
  exists filename st', download_image env self image_url title st = (Ok filename, st').
Proof.
  rewrite download_image_run. cbv zeta.
  destruct (no_url image_url); [eauto|].
  destruct (urlretrieve env _ _); eauto.
Qed.

(** What the body of the [try] does with one article. *)
Lemma extract_article_run (env : Env) (self : NewsScraper) (article : Article)
  (st : State) :
  match h3_stream_item_title article, p_stream_item_summary article with
  | None, _ =>
      exists st',
        extract_article env self article st
        = (Raise (NoSuchElementException "h3.stream-item-title"), st')
  | Some _, None =>
      exists st', extract_article env self article st = (Raise TimeoutException, st')
  | Some title_element, Some description_element =>
      exists news_item st',
        extract_article env self article st = (Ok news_item, st')
        /\ NewsItem.title news_item = text title_element
        /\ NewsItem.description news_item = text description_element
  end.
Proof.
  unfold extract_article.
  destruct (h3_stream_item_title article) as [title_element|].
  2: { destruct (p_stream_item_summary article); eexists; reflexivity. }
  destruct (p_stream_item_summary article) as [description_element|].
  2: { eexists; reflexivity. }
  rewrite emit_then, ret_then, emit_then, ret_then.
  match goal with
  | |- context [bind (extract_image_url ?a) _ ?s] =>
      destruct (extract_image_url_returns a s) as (image_url & st1 & Himg)
  end.
  rewrite (bind_ok _ _ _ _ _ Himg).
  destruct (download_image_returns env self image_url (text title_element) st1)
    as (filename & st2 & Hdl).
  rewrite (bind_ok _ _ _ _ _ Hdl).
  eexists; eexists. split; [reflexivity|]. split; reflexivity.
Qed.

(** The loop over the articles appends one record per processable article,
    in the order of the articles, and swallows every exception. *)
Lemma extract_loop_run (env : Env) (self : NewsScraper) :
  forall articles news_data st,
  exists items st',
    extract_loop env self articles news_data st = (Ok (news_data ++ items), st')
    /\ Forall2 record_of (filter processable articles) items.
Proof.
  induction articles as [|article rest IH]; intros news_data st.
  - exists [], st. rewrite app_nil_r. split; [reflexivity|constructor].
  - cbn [extract_loop filter]. unfold processable at 1.
    pose proof (extract_article_run env self article st) as Hbody.
    destruct (h3_stream_item_title article) as [title_element|] eqn:Htitle;
      [destruct (p_stream_item_summary article) as [description_element|] eqn:Hsum|].
    + destruct Hbody as (news_item & st1 & Hrun & Ht & Hd).
      destruct (IH (news_data ++ [news_item])
                  (logged INFO (ExtractedNewsItem news_item) st1))
        as (items & st' & Hloop & Hitems).
      exists (news_item :: items), st'. split.
      * unfold bind at 1, try_except at 1.
        rewrite (bind_ok _ _ _ _ _ Hrun). unfold info. rewrite emit_then.
        unfold ret at 1. fold (logged INFO (ExtractedNewsItem news_item) st1).
        rewrite Hloop. now rewrite <- app_assoc.
      * constructor; [|exact Hitems].
        split; [rewrite Htitle, Ht|rewrite Hsum, Hd];
          [now destruct title_element|now destruct description_element].
    + destruct Hbody as (st1 & Hrun).
      unfold bind at 1, try_except at 1. rewrite (bind_raise _ _ _ _ _ Hrun).
      unfold error. rewrite emit_then. unfold ret at 1.
      destruct (IH news_data (logged ERROR (ErrorExtractingArticle TimeoutException) st1))
        as (items & st' & Hloop & Hitems).
      exists items, st'. split; [|exact Hitems]. exact Hloop.
    + destruct Hbody as (st1 & Hrun).
      unfold bind at 1, try_except at 1. rewrite (bind_raise _ _ _ _ _ Hrun).
      unfold error. rewrite emit_then. unfold ret at 1.
      destruct (IH news_data
                  (logged ERROR (ErrorExtractingArticle
                                   (NoSuchElementException "h3.stream-item-title")) st1))
        as (items & st' & Hloop & Hitems).
      exists items, st'. split; [|exact Hitems]. exact Hloop.
Qed.

(** C3: extraction tolerates the failure of single articles.  The loop over
    the loaded articles never raises; the records it appends are those of
    the processable articles, one each and in the order of the articles; an
    article whose processing raises (no title element, or no summary within
    the wait) adds nothing, and the loop goes on with the next one.  With
    five cards of which the third has no title element, [extract_news_data]
    returns the four records of the others, in order, and logs the error. *)
Theorem extract_news_data_tolerant (env : Env) (self : NewsScraper) :
  (forall articles news_data st,
      exists items st',
        extract_loop env self articles news_data st
        = (Ok (news_data ++ items), st')
        /\ Forall2 record_of (filter processable articles) items)
  /\ (forall fuel st articles st1,
        scroll_and_load env fuel (logged INFO ExtractingNewsData st)
        = (Ok articles, st1) ->
        exists items st',
          extract_news_data env self fuel st = (Ok items, st')
          /\ Forall2 record_of (filter processable articles) items)
  /\ (forall article st,
        processable article = false ->
        exists e st', extract_article env self article st = (Raise e, st'))
  /\ (let run := extract_news_data (site (fun _ => five_cards))
                   (scraper_of (u "Politics")) 5 initial_state in
      exists items,
        fst run = Ok items
        /\ length items = 4
        /\ map NewsItem.title items = [u "A wins"; u "B wins"; u "D wins"; u "E wins"]
        /\ In (Logged ERROR (ErrorExtractingArticle
                               (NoSuchElementException "h3.stream-item-title")))
              (trace (snd run))).
Proof.
  split; [|split; [|split]].
  - apply extract_loop_run.
  - intros fuel st articles st1 Hload.
    unfold extract_news_data, info. rewrite emit_then.
    fold (logged INFO ExtractingNewsData st).
    rewrite (bind_ok _ _ _ _ _ Hload).
    destruct (extract_loop_run env self articles [] st1) as (items & st' & Hrun & Hitems).
    exists items, st'. split; [exact Hrun|exact Hitems].
  - intros article st Hno.
    pose proof (extract_article_run env self article st) as Hbody.
    unfold processable in Hno.
    destruct (h3_stream_item_title article);
      [destruct (p_stream_item_summary article); [discriminate|]|].
    + destruct Hbody as (st' & Hrun). eauto.
    + destruct Hbody as (st' & Hrun). eauto.
  - cbv zeta. eexists. split; [vm_compute; reflexivity|].
    split; [reflexivity|]. split; [reflexivity|].
    vm_compute. find_event.
Qed.

(** C8 on the code: an article with a title but without a summary element
    does not get the record with the fallback description; the wait raises,
    the article is dropped and the timeout is logged. *)
Theorem missing_description_drops_article :
  let run := extract_news_data (site (fun _ => [no_summary]))
               (scraper_of (u "Politics")) 5 initial_state in
  p_stream_item_summary no_summary = None
  /\ fst run = Ok []
  /\ In (Logged ERROR (ErrorExtractingArticle TimeoutException)) (trace (snd run)).
Proof.
  cbv zeta. split; [reflexivity|]. split; [vm_compute; reflexivity|].
  vm_compute. find_event.
Qed.

(** ** Counting the search phrase *)

Lemma search_phrase_count_run (env : Env) (self : NewsScraper)
  (title description : str) (st : State) :
  let count :=
    (Z.of_nat (Py.count (str_lower env title) (str_lower env (search_phrase self)))
     + Z.of_nat (Py.count (str_lower env description)
                   (str_lower env (search_phrase self))))%Z in
  search_phrase_count env self title description st =
  (Ok count, logged INFO (SearchPhraseCountIn title description count) st).
Proof. reflexivity. Qed.

(** A French headline: the accented capital is
    lowered as the interpreter lowers it. *)
Example search_phrase_count_accents :
  fst (search_phrase_count slow_start
         {| site_url := []; search_phrase := [233%N] ++ u "lection";
            category := []; headless := true; timestamp := [];
            output_dir := []; images_dir := [] |}
         ([201%N] ++ u "LECTION en France") [] initial_state) = Ok 1%Z.
Proof. reflexivity. Qed.



(** ** File names *)

Lemma init_run (env : Env) (site_url search_phrase category : str)
  (headless : bool) (st : State) :
  exists st',
    init env site_url search_phrase category headless st =
    (Ok {| site_url := site_url; search_phrase := search_phrase;
           category := category; headless := headless;
           timestamp := utcnow env;
           output_dir :=
             Py.os_path_join (u "output")
               (category_prefix env category ++ u "_" ++ utcnow env);
           images_dir :=
             Py.os_path_join
               (Py.os_path_join (u "output")
                  (category_prefix env category ++ u "_" ++ utcnow env))
               (u "images") |}, st')
    /\ polled st' = polled st
    /\ files st' = files st.
Proof.
  unfold init, create_output_directory. run.
  destruct (negb _); run; eexists; (split; [reflexivity|split; reflexivity]).
Qed.

(** C5: for a non-empty image address, [download_image] asks for the image
    to be stored under the name [<CATEGORY>_<sanitizedTitlePrefix>_<timestamp>.jpg]
    in the images directory, and returns that name when the download
    succeeds: CATEGORY is the category in upper case with spaces turned into
    underscores, the prefix is the first 15 characters of the title without
    their non-word characters, and the timestamp is the one [__init__] read
    from the clock. *)
Theorem download_image_filename (env : Env) (self : NewsScraper)
  (image_url title : str) (st : State) :
  image_url <> [] ->
  let image_filename :=
    Spec.normalized (upper_char env) (category self) ++ u "_"
    ++ Spec.word_chars (is_word env) (firstn 15 title) ++ u "_"
    ++ timestamp self ++ u ".jpg" in
  let image_path := Py.os_path_join (images_dir self) image_filename in
  (exists rest,
      trace (snd (download_image env self (Some image_url) title st))
      = trace st ++ Urlretrieve image_url image_path :: rest)
  /\ (urlretrieve env image_url image_path = None ->
      fst (download_image env self (Some image_url) title st) = Ok image_filename)
  /\ (forall site_url search_phrase category headless st0,
        exists scraper st1,
          init env site_url search_phrase category headless st0 = (Ok scraper, st1)
          /\ timestamp scraper = utcnow env).
Proof.
  intros Hurl. cbv zeta.
  rewrite download_image_run. cbv zeta.
  change (Spec.image_filename env (category self) title (timestamp self))
    with (Spec.normalized (upper_char env) (category self) ++ u "_"
          ++ Spec.word_chars (is_word env) (firstn 15 title) ++ u "_"
          ++ timestamp self ++ u ".jpg").
  assert (Hno : no_url (Some image_url) = false)
    by (destruct image_url; [congruence|reflexivity]).
  rewrite Hno. cbn [url_text].
  split; [|split].
  - destruct (urlretrieve env image_url _); [destruct (urlretrieve_wrote env _ _)|];
      cbn [snd logged did with_file trace];
      rewrite <- app_assoc; eexists; reflexivity.
  - intros Hok. rewrite Hok. reflexivity.
  - intros site_url search_phrase category headless st0.
    destruct (init_run env site_url search_phrase category headless st0)
      as (st1 & Hinit & _).
    eexists; eexists. split; [exact Hinit|reflexivity].
Qed.

(** The report step when both files can be written. *)
Lemma save_to_excel_run (env : Env) (self : NewsScraper) (rows : list NewsItem.t)
  (st : State) :
  let xlsx :=
    Py.os_path_join (output_dir self)
      (category_prefix env (category self) ++ u "_news_data_" ++ timestamp self
       ++ u ".xlsx") in
  let txt :=
    Py.os_path_join (output_dir self)
      (category_prefix env (category self) ++ u "_scrape_log_" ++ timestamp self
       ++ u ".txt") in
  to_excel env xlsx = None ->
  open_for_writing env txt = None ->
  exists st',
    save_to_excel env self rows st = (Ok tt, st')
    /\ trace st' = trace st
                   ++ [DataFrameToExcel xlsx rows; Logged INFO (DataSavedTo xlsx);
                       WroteScrapeLog txt (report_time env) (site_url self)
                         (category self) (search_phrase self) xlsx rows;
                       Logged INFO (ScrapingLogSavedTo txt)]
    /\ In xlsx (files st') /\ In txt (files st').
Proof.
  cbv zeta. intros Hx Ht.
  unfold save_to_excel, save_scrape_log. rewrite Hx. run. rewrite Ht. run.
  eexists. split; [reflexivity|]. cbn [trace files].
  split; [now rewrite <- !app_assoc|].
  split; [apply In_kept, In_created|apply In_created].
Qed.

Lemma upper_ext (upper_char upper_char' : codepoint -> str) (s : str) :
  (forall c, upper_char' c = upper_char c) ->
  Py.upper upper_char' s = Py.upper upper_char s.
Proof.
  intros H. unfold Py.upper. induction s as [|c s IH]; [reflexivity|].
  cbn [flat_map]. now rewrite H, IH.
Qed.

(** C6: normalising a category (upper case, spaces to underscores) gives the
    same text wherever the same characters have the same upper case,
    whatever else differs in the world; normalising twice changes nothing
    more, upper case being what every interpreter has it; and the output
    directory, the spreadsheet and the text log of a run are all named with
    the normalised category and the timestamp that [__init__] read from the
    clock. *)
Theorem category_prefix_shared (env : Env) (site_url search_phrase category : str)
  (headless : bool) (st : State) :
  (forall env',
      (forall c, upper_char env' c = upper_char env c) ->
      category_prefix env' category = category_prefix env category)
  /\ (Spec.upper_settled (upper_char env) ->
      category_prefix env (category_prefix env category)
      = category_prefix env category)
  /\ exists self st0,
       init env site_url search_phrase category headless st = (Ok self, st0)
       /\ let prefix := category_prefix env category in
          let stamp := utcnow env in
          let xlsx :=
            Py.os_path_join (output_dir self)
              (prefix ++ u "_news_data_" ++ stamp ++ u ".xlsx") in
          let txt :=
            Py.os_path_join (output_dir self)
              (prefix ++ u "_scrape_log_" ++ stamp ++ u ".txt") in
          output_dir self = Py.os_path_join (u "output") (prefix ++ u "_" ++ stamp)
          /\ forall rows st1,
               to_excel env xlsx = None ->
               open_for_writing env txt = None ->
               exists st2,
                 save_to_excel env self rows st1 = (Ok tt, st2)
                 /\ trace st2 =
                    trace st1
                    ++ [DataFrameToExcel xlsx rows; Logged INFO (DataSavedTo xlsx);
                        WroteScrapeLog txt (report_time env) site_url category
                          search_phrase xlsx rows;
                        Logged INFO (ScrapingLogSavedTo txt)]
                 /\ In xlsx (files st2) /\ In txt (files st2).
Proof.
  split; [|split].
  - intros env' Hsame. unfold category_prefix. f_equal. now apply upper_ext.
  - apply category_prefix_fixed.
  - destruct (init_run env site_url search_phrase category headless st)
      as (st0 & Hinit & _).
    eexists; exists st0. split; [exact Hinit|]. cbv zeta.
    split; [reflexivity|].
    intros rows st1 Hx Ht.
    exact (save_to_excel_run env _ rows st1 Hx Ht).
Qed.

(** ** The category filter *)

(** C9: with the empty category, [filter_news_by_category] returns at once:
    no element is looked up, nothing is clicked, nothing is raised, and the
    state of the world is what it was. *)
Theorem filter_empty_category (env : Env) (self : NewsScraper) (st : State) :
  category self = [] ->
  filter_news_by_category env self st = (Ok tt, st).
Proof. unfold filter_news_by_category. now intros ->. Qed.

Lemma filter_empty_category_witness :
  filter_news_by_category slow_start (scraper_of []) initial_state
  = (Ok tt, initial_state).
Proof.
  apply (filter_empty_category slow_start (scraper_of []) initial_state).
  reflexivity.
Defined.

Lemma open_site_run (self : NewsScraper) (st : State) :
  open_site self st =
  (Ok tt, did (OpenAvailableBrowser (site_url self) (headless self))
            (logged INFO (OpeningSite (site_url self) (headless self)) st)).
Proof. reflexivity. Qed.

Lemma filter_not_found_run (env : Env) (self : NewsScraper) (st : State) :
  category self <> [] ->
  is_element_visible env (u "xpath://span[text()='" ++ category self ++ u "']")
  = false ->
  filter_news_by_category env self st =
  (Raise (ValueError (u "Category '" ++ category self ++ u "' not found.")),
   logged ERROR (CategoryNotFoundOnSite (category self))
     (did (IsElementVisible (u "xpath://span[text()='" ++ category self ++ u "']"))
        (logged INFO (FilteringNewsByCategory (category self)) st))).
Proof.
  intros Hc Hvis. unfold filter_news_by_category.
  destruct (category self) as [|c rest] eqn:E; [congruence|].
  cbn [Py.truthy]. unfold info, error. rewrite !emit_then.
  rewrite Hvis. rewrite emit_then. reflexivity.
Qed.

(** C7, as the code has it: for a non-empty category whose control
    [//span[text()='<category>']] is not visible on the page,
    [filter_news_by_category] raises [ValueError] with the message
    [Category '<category>' not found.] after a single look-up; [main] does
    not catch it: the run ends with that error right after opening the
    site, having polled no article, written no file and made no second
    attempt. *)
Theorem filter_category_not_found (env : Env) (config : Config.t) (fuel : nat)
  (st : State) :
  Config.category config <> [] ->
  is_element_visible env
    (u "xpath://span[text()='" ++ Config.category config ++ u "']") = false ->
  let not_found :=
    ValueError (u "Category '" ++ Config.category config ++ u "' not found.") in
  let locator := u "xpath://span[text()='" ++ Config.category config ++ u "']" in
  (forall self st1,
      category self = Config.category config ->
      exists st2,
        filter_news_by_category env self st1 = (Raise not_found, st2)
        /\ trace st2 =
           trace st1
           ++ [Logged INFO (FilteringNewsByCategory (Config.category config));
               IsElementVisible locator;
               Logged ERROR (CategoryNotFoundOnSite (Config.category config))])
  /\ exists self st0 st',
       init env (Config.site_url config) (Config.search_phrase config)
         (Config.category config)
         (match Config.headless config with Some h => h | None => true end) st
       = (Ok self, st0)
       /\ main env config fuel st = (Raise not_found, st')
       /\ trace st' =
          trace st0
          ++ [Logged INFO (OpeningSite (site_url self) (headless self));
              OpenAvailableBrowser (site_url self) (headless self);
              Logged INFO (FilteringNewsByCategory (Config.category config));
              IsElementVisible locator;
              Logged ERROR (CategoryNotFoundOnSite (Config.category config))]
       /\ polled st' = polled st
       /\ files st' = files st.
Proof.
  intros Hc Hvis. cbv zeta. split.
  - intros self st1 Hself. rewrite <- Hself in *.
    rewrite filter_not_found_run by assumption.
    eexists. split; [reflexivity|].
    cbn [logged did trace]. now rewrite <- !app_assoc.
  - destruct (init_run env (Config.site_url config) (Config.search_phrase config)
                (Config.category config)
                (match Config.headless config with Some h => h | None => true end) st)
      as (st0 & Hinit & Hpolled & Hfiles).
    match type of Hinit with _ = (Ok ?s, _) => set (self := s) in * end.
    exists self, st0. eexists. split; [exact Hinit|].
    unfold main. rewrite (bind_ok _ _ _ _ _ Hinit).
    rewrite (bind_ok _ _ _ _ _ (open_site_run self st0)).
    erewrite bind_raise by (apply filter_not_found_run; assumption).
    split; [reflexivity|].
    cbn [logged did trace polled files].
    split; [now rewrite <- !app_assoc|]. split; assumption.
Qed.

(** C7 as stated fails for the empty category: no control with the text of
    the category is visible on the page, yet the filter raises nothing and
    returns with the world untouched, and [main] goes on to load and extract
    articles and ends normally. *)
Lemma filter_as_stated_fails :
  is_element_visible nine (u "xpath://span[text()='']") = false
  /\ filter_news_by_category nine (scraper_of []) initial_state
     = (Ok tt, initial_state)
  /\ fst (main nine (config_of []) 5 initial_state) = Ok tt
  /\ In (GetWebelements "css:li.stream-item")
        (trace (snd (main nine (config_of []) 5 initial_state))).
Proof.
  split; [reflexivity|]. split; [reflexivity|].
  split; [vm_compute; reflexivity|].
  vm_compute. find_event.
Qed.

Lemma filter_category_not_found_witness :
  exists st',
    main slow_start (config_of (u "Sports")) 5 initial_state
    = (Raise (ValueError (u "Category 'Sports' not found.")), st')
    /\ polled st' = 0
    /\ files st' = [].
Proof.
  destruct (filter_category_not_found slow_start (config_of (u "Sports")) 5
              initial_state)
    as (_ & self & st0 & st' & _ & Hmain & _ & Hpolled & Hfiles).
  - discriminate.
  - reflexivity.
  - exists st'. split; [exact Hmain|]. split; assumption.
Defined.

Lemma extract_news_data_tolerant_witness :
  exists items st',
    extract_news_data (site (fun _ => five_cards)) (scraper_of (u "Politics")) 5
      initial_state = (Ok items, st')
    /\ Forall2 record_of (filter processable five_cards) items.
Proof.
  eapply (proj1 (proj2 (extract_news_data_tolerant
                          (site (fun _ => five_cards)) (scraper_of (u "Politics"))))).
  vm_compute. reflexivity.
Defined.

(** A download that fails behind the file it had begun: the placeholder all
    the same. *)
Lemma download_image_never_fails_witness :
  exists filename st',
    download_image (offline []) (scraper_of (u "Politics"))
      (Some (u "https://s.yimg.com/a.jpg")) (u "Storm") initial_state
    = (Ok filename, st')
    /\ filename = u "placeholder.png"
    /\ In (Logged ERROR (FailedToDownloadImage (URLError "no route to host")))
          (trace st').
Proof.
  destruct (download_image_never_fails (offline []) (scraper_of (u "Politics"))
              (Some (u "https://s.yimg.com/a.jpg")) (u "Storm") initial_state)
    as (filename & st' & Hrun & _ & _ & _ & Hfail).
  exists filename, st'. split; [exact Hrun|].
  apply (Hfail (URLError "no route to host")); reflexivity.
Defined.

(** [Café au lait] keeps its accented letter. *)
Lemma download_image_filename_witness :
  fst (download_image slow_start (scraper_of (u "US Politics"))
         (Some (u "https://s.yimg.com/a.jpg")) (u "Caf" ++ [233%N] ++ u " au lait")
         initial_state)
  = Ok (u "US_POLITICS_Caf" ++ [233%N] ++ u "aulait_20240820153000.jpg").
Proof.
  apply (proj1 (proj2 (download_image_filename slow_start
                         (scraper_of (u "US Politics"))
                         (u "https://s.yimg.com/a.jpg")
                         (u "Caf" ++ [233%N] ++ u " au lait")
                         initial_state ltac:(discriminate)))).
  reflexivity.
Defined.

Lemma category_prefix_shared_witness :
  category_prefix slow_start (category_prefix slow_start (u "stra" ++ [223%N] ++ u "e"))
  = category_prefix slow_start (u "stra" ++ [223%N] ++ u "e")
  /\ exists self st0,
    init slow_start (u "https://news.yahoo.com") (u "election") (u "US Politics")
      true initial_state = (Ok self, st0)
    /\ output_dir self = u "output/US_POLITICS_20240820153000"
    /\ exists st2,
         save_to_excel slow_start self [] st0 = (Ok tt, st2)
         /\ In (u "output/US_POLITICS_20240820153000/US_POLITICS_news_data_20240820153000.xlsx")
               (files st2)
         /\ In (u "output/US_POLITICS_20240820153000/US_POLITICS_scrape_log_20240820153000.txt")
               (files st2).
Proof.
  split.
  - apply (proj1 (proj2 (category_prefix_shared slow_start [] []
                           (u "stra" ++ [223%N] ++ u "e") true initial_state))).
    exact latin1_upper_settled.
  - destruct (category_prefix_shared slow_start (u "https://news.yahoo.com")
                (u "election") (u "US Politics") true initial_state)
      as (_ & _ & self & st0 & Hinit & Hdir & Hsave).
    exists self, st0. split; [exact Hinit|]. split; [exact Hdir|].
    destruct (Hsave [] st0 eq_refl eq_refl) as (st2 & Hrun & _ & Hx & Ht).
    exists st2. split; [exact Hrun|].
    rewrite Hdir in Hx, Ht. split; [exact Hx|exact Ht].
Defined.
(** * Further properties of the code *)

(** ** What a computation appends to the trace *)

Lemma count_events_app (p : event -> bool) (l l' : list event) :
  count_events p (l ++ l') = count_events p l + count_events p l'.
Proof. unfold count_events. now rewrite filter_app, length_app. Qed.

Lemma emits_ret {A} (p : event -> bool) (a : A) : emits_within p 0 (ret a).
Proof. intros st. exists []. now rewrite app_nil_r. Qed.

Lemma emits_raise {A} (p : event -> bool) (e : exn) : emits_within p 0 (@raise A e).
Proof. intros st. exists []. now rewrite app_nil_r. Qed.

Lemma emits_out_of_fuel {A} (p : event -> bool) : emits_within p 0 (@out_of_fuel A).
Proof. intros st. exists []. now rewrite app_nil_r. Qed.

Lemma emits_emit (p : event -> bool) (e : event) :
  emits_within p (if p e then 1 else 0) (emit e).
Proof.
  intros st. exists [e]. split; [reflexivity|].
  unfold count_events. simpl. destruct (p e); simpl; lia.
Qed.

Lemma emits_more {A} (p : event -> bool) (n n' : nat) (m : M A) :
  n <= n' -> emits_within p n m -> emits_within p n' m.
Proof.
  intros Hn H st. destruct (H st) as (added & Htrace & Hcount).
  exists added. split; [assumption|lia].
Qed.

Lemma emits_bind {A B} (p : event -> bool) (n n' : nat) (m : M A) (k : A -> M B) :
  emits_within p n m ->
  (forall a, emits_within p n' (k a)) ->
  emits_within p (n + n') (bind m k).
Proof.
  intros Hm Hk st. unfold bind.
  destruct (Hm st) as (a1 & Ht1 & Hc1).
  destruct (m st) as [[a|e|] st1]; cbn [snd] in *.
  - destruct (Hk a st1) as (a2 & Ht2 & Hc2).
    exists (a1 ++ a2). rewrite Ht2, Ht1, app_assoc, count_events_app.
    split; [reflexivity|lia].
  - exists a1. split; [assumption|lia].
  - exists a1. split; [assumption|lia].
Qed.

Lemma emits_try {A} (p : event -> bool) (n n' : nat) (body : M A)
  (handler : exn -> M A) :
  emits_within p n body ->
  (forall e, emits_within p n' (handler e)) ->
  emits_within p (n + n') (try_except body handler).
Proof.
  intros Hm Hk st. unfold try_except.
  destruct (Hm st) as (a1 & Ht1 & Hc1).
  destruct (body st) as [[a|e|] st1]; cbn [snd] in *.
  - exists a1. split; [assumption|lia].
  - destruct (Hk e st1) as (a2 & Ht2 & Hc2).
    exists (a1 ++ a2). rewrite Ht2, Ht1, app_assoc, count_events_app.
    split; [reflexivity|lia].
  - exists a1. split; [assumption|lia].
Qed.

Lemma emits_create_file (p : event -> bool) (path : str) :
  emits_within p 0 (create_file path).
Proof. intros st. exists []. now rewrite app_nil_r. Qed.

Lemma emits_os_path_exists (p : event -> bool) (path : str) :
  emits_within p 0 (os_path_exists path).
Proof. intros st. exists []. now rewrite app_nil_r. Qed.

Lemma emits_os_makedirs (p : event -> bool) (path : str) :
  emits_within p (if p (Makedirs path) then 1 else 0) (os_makedirs path).
Proof.
  intros st. exists [Makedirs path]. split; [reflexivity|].
  unfold count_events. simpl. destruct (p (Makedirs path)); simpl; lia.
Qed.

Lemma emits_get_webelements (env : Env) (p : event -> bool) (locator : string) :
  emits_within p (if p (GetWebelements locator) then 1 else 0)
    (get_webelements env locator).
Proof.
  intros st. exists [GetWebelements locator]. split; [reflexivity|].
  unfold count_events. simpl. destruct (p (GetWebelements locator)); simpl; lia.
Qed.

Create HintDb emits.

(** Proves [emits_within p 0 m] for a computation built from the monad's
    operations, by going through its structure; the methods already dealt
    with are taken from the hints. *)
Ltac never :=
  repeat first
    [ solve [auto 1 with emits nocore]
    | apply emits_ret | apply emits_raise | apply emits_out_of_fuel
    | apply emits_create_file | apply emits_os_path_exists
    | exact (emits_emit _ _)
    | exact (emits_os_makedirs _ _)
    | exact (emits_get_webelements _ _ _)
    | apply (emits_bind _ 0 0); [|intros ?]
    | apply (emits_try _ 0 0); [|intros ?]
    | match goal with
      | |- emits_within _ _ (if ?b then _ else _) => destruct b
      | |- emits_within _ _ (match ?x with _ => _ end) => destruct x
      end ].

(** ** The browser is closed only by [close] *)

Lemma init_keeps_open env site_url search_phrase category headless :
  emits_within is_close 0 (init env site_url search_phrase category headless).
Proof. unfold init, create_output_directory, info. never. Qed.

Lemma open_site_keeps_open self : emits_within is_close 0 (open_site self).
Proof. unfold open_site, info. never. Qed.

Lemma filter_keeps_open env self :
  emits_within is_close 0 (filter_news_by_category env self).
Proof. unfold filter_news_by_category, info, error. never. Qed.

Lemma scroll_loop_keeps_open env : forall fuel articles previous_count,
  emits_within is_close 0 (scroll_loop env fuel articles previous_count).
Proof.
  induction fuel as [|fuel IH]; intros articles previous_count;
    cbn [scroll_loop]; unfold info; never.
Qed.

Lemma download_image_keeps_open env self image_url title :
  emits_within is_close 0 (download_image env self image_url title).
Proof. unfold download_image, urllib_urlretrieve, info, error. never. Qed.

#[local] Hint Resolve scroll_loop_keeps_open download_image_keeps_open : emits.

Lemma extract_article_keeps_open env self article :
  emits_within is_close 0 (extract_article env self article).
Proof.
  unfold extract_article, extract_image_url, search_phrase_count, info, error.
  never.
Qed.

#[local] Hint Resolve extract_article_keeps_open : emits.

Lemma extract_loop_keeps_open env self : forall articles news_data,
  emits_within is_close 0 (extract_loop env self articles news_data).
Proof.
  induction articles as [|article rest IH]; intros news_data;
    cbn [extract_loop]; unfold info, error; never.
Qed.

#[local] Hint Resolve extract_loop_keeps_open : emits.

Lemma extract_news_data_keeps_open env self fuel :
  emits_within is_close 0 (extract_news_data env self fuel).
Proof. unfold extract_news_data, scroll_and_load, info. never. Qed.

Lemma save_to_excel_keeps_open env self news_data :
  emits_within is_close 0 (save_to_excel env self news_data).
Proof. unfold save_to_excel, save_scrape_log, info, error. never. Qed.

Lemma close_run (self : NewsScraper) (st : State) :
  close self st = (Ok tt, did CloseAllBrowsers (logged INFO ClosingAllBrowsers st)).
Proof. reflexivity. Qed.

(** A computation that ends by closing the browser, behind steps that do
    not close it, has closed it once if it returned and not at all if it
    did not. *)
Lemma closes_behind {A B} (m : M A) (k : A -> M B) :
  emits_within is_close 0 m ->
  (forall a st, exists added,
      trace (snd (k a st)) = (trace st ++ added)
      /\ count_events is_close added = if returned (fst (k a st)) then 1 else 0) ->
  forall st, exists added,
    trace (snd (bind m k st)) = (trace st ++ added)
    /\ count_events is_close added = if returned (fst (bind m k st)) then 1 else 0.
Proof.
  intros Hm Hk st. unfold bind.
  destruct (Hm st) as (a1 & Ht1 & Hc1).
  destruct (m st) as [[a|e|] st1]; cbn [snd fst returned] in *.
  - destruct (Hk a st1) as (a2 & Ht2 & Hc2).
    exists (a1 ++ a2). rewrite Ht2, Ht1, app_assoc, count_events_app.
    split; [reflexivity|lia].
  - exists a1. split; [assumption|lia].
  - exists a1. split; [assumption|lia].
Qed.

(** X1: [main] calls [close_all_browsers] exactly when it ends normally, and
    then once.  A run that ends with an exception (category not found, wait
    timeout, spreadsheet not writable) or that never leaves the loader's loop
    leaves the browser session open. *)
Theorem main_closes_iff_it_returns (env : Env) (config : Config.t) (fuel : nat)
  (st : State) :
  exists added,
    trace (snd (main env config fuel st)) = (trace st ++ added)
    /\ count_events is_close added
       = if returned (fst (main env config fuel st)) then 1 else 0.
Proof.
  revert st. unfold main.
  apply closes_behind; [apply init_keeps_open|intros self].
  apply closes_behind; [apply open_site_keeps_open|intros _].
  apply closes_behind; [apply filter_keeps_open|intros _].
  apply closes_behind; [apply extract_news_data_keeps_open|intros news_data].
  apply closes_behind; [apply save_to_excel_keeps_open|intros _].
  intros st. rewrite close_run. cbn [fst snd returned did logged trace].
  exists [Logged INFO ClosingAllBrowsers; CloseAllBrowsers].
  split; [now rewrite <- app_assoc|reflexivity].
Qed.

(** ** Accounting for the articles *)

Lemma extract_loop_cons_ok (env : Env) (self : NewsScraper) (article : Article)
  (rest : list Article) (news_data : list NewsItem.t) (news_item : NewsItem.t)
  (st st1 : State) :
  extract_article env self article st = (Ok news_item, st1) ->
  extract_loop env self (article :: rest) news_data st
  = extract_loop env self rest (news_data ++ [news_item])
      (logged INFO (ExtractedNewsItem news_item) st1).
Proof.
  intros Hrun. cbn [extract_loop].
  unfold bind at 1, try_except at 1.
  rewrite (bind_ok _ _ _ _ _ Hrun). unfold info. rewrite emit_then. reflexivity.
Qed.

Lemma extract_loop_cons_raise (env : Env) (self : NewsScraper) (article : Article)
  (rest : list Article) (news_data : list NewsItem.t) (e : exn) (st st1 : State) :
  extract_article env self article st = (Raise e, st1) ->
  extract_loop env self (article :: rest) news_data st
  = extract_loop env self rest news_data
      (logged ERROR (ErrorExtractingArticle e) st1).
Proof.
  intros Hrun. cbn [extract_loop].
  unfold bind at 1, try_except at 1.
  rewrite (bind_raise _ _ _ _ _ Hrun). unfold error. rewrite emit_then. reflexivity.
Qed.

Lemma extract_article_no_error_line env self article :
  emits_within is_article_error 0 (extract_article env self article).
Proof.
  unfold extract_article, extract_image_url, search_phrase_count, download_image,
    urllib_urlretrieve, info, error.
  never.
Qed.

Lemma download_image_one_request env self image_url title :
  emits_within is_request 1 (download_image env self image_url title).
Proof.
  intros st. rewrite download_image_run. cbv zeta.
  destruct (no_url image_url).
  - exists []. rewrite app_nil_r. split; [reflexivity|]. unfold count_events. simpl. lia.
  - destruct (urlretrieve env _ _); [destruct (urlretrieve_wrote env _ _)|];
      cbn [snd logged did with_file trace]; rewrite <- app_assoc;
      eexists; (split; [reflexivity|]); unfold count_events; simpl; lia.
Qed.

Lemma extract_article_one_request env self article :
  emits_within is_request 1 (extract_article env self article).
Proof.
  unfold extract_article, extract_image_url, search_phrase_count, info, error.
  apply (emits_bind _ 0 1); [never|intros _].
  apply (emits_bind _ 0 1); [never|intros title_element].
  apply (emits_bind _ 0 1); [never|intros _].
  apply (emits_bind _ 0 1); [never|intros description_element].
  apply (emits_bind _ 0 1); [never|intros image_url].
  apply (emits_bind _ 1 0); [apply download_image_one_request|intros filename].
  never.
Qed.

(** The three ways the body of the [try] ends. *)
Lemma extract_article_cases (env : Env) (self : NewsScraper) (article : Article)
  (st : State) :
  (exists news_item st1,
      processable article = true
      /\ extract_article env self article st = (Ok news_item, st1))
  \/ (processable article = false
      /\ extract_article env self article st
         = (Raise (NoSuchElementException "h3.stream-item-title"),
            did (FindElement "h3.stream-item-title") st))
  \/ (processable article = false
      /\ extract_article env self article st
         = (Raise TimeoutException,
            did (WaitPresence "p[data-test-locator='stream-item-summary']" 10)
              (did (FindElement "h3.stream-item-title") st))).
Proof.
  pose proof (extract_article_run env self article st) as Hbody.
  unfold processable.
  destruct (h3_stream_item_title article) as [title_element|] eqn:Htitle;
    [destruct (p_stream_item_summary article) as [description_element|] eqn:Hsum|].
  - left. destruct Hbody as (news_item & st1 & Hrun & _). eauto.
  - right. right. split; [reflexivity|].
    unfold extract_article. rewrite Htitle, Hsum. reflexivity.
  - right. left. split; [reflexivity|].
    unfold extract_article. rewrite Htitle. reflexivity.
Qed.

Lemma count_events_cons (p : event -> bool) (e : event) (l : list event) :
  count_events p (e :: l) = (if p e then 1 else 0) + count_events p l.
Proof. unfold count_events. simpl. now destruct (p e). Qed.

(** The loop's bookkeeping: every article ends up either as a record or as
    one error line, and only articles that became records had a download
    requested. *)
Lemma extract_loop_accounts (env : Env) (self : NewsScraper) :
  forall articles news_data st,
  exists items st' added,
    extract_loop env self articles news_data st = (Ok (news_data ++ items), st')
    /\ trace st' = (trace st ++ added)
    /\ length items = length (filter processable articles)
    /\ length items + count_events is_article_error added = length articles
    /\ count_events is_request added <= length items.
Proof.
  induction articles as [|article rest IH]; intros news_data st.
  - exists [], st, []. rewrite !app_nil_r. repeat split; reflexivity || (simpl; lia).
  - cbn [filter].
    destruct (extract_article_cases env self article st)
      as [(news_item & st1 & Hp & Hrun)|[(Hp & Hrun)|(Hp & Hrun)]]; rewrite Hp.
    + destruct (extract_article_no_error_line env self article st) as (a1 & Ht1 & Hc1).
      destruct (extract_article_one_request env self article st) as (a1' & Ht1' & Hr1).
      rewrite Ht1 in Ht1'. apply app_inv_head in Ht1'. subst a1'.
      rewrite Hrun in Ht1. cbn [snd] in Ht1.
      rewrite (extract_loop_cons_ok _ _ _ _ _ _ _ _ Hrun).
      destruct (IH (news_data ++ [news_item])
                  (logged INFO (ExtractedNewsItem news_item) st1))
        as (items & st' & a2 & Hloop & Ht2 & Hlen & Hc2 & Hr2).
      exists (news_item :: items), st',
        (a1 ++ Logged INFO (ExtractedNewsItem news_item) :: a2).
      rewrite Hloop, Ht2. cbn [logged did trace]. rewrite Ht1.
      rewrite <- !app_assoc. cbn [app length].
      rewrite !count_events_app, !count_events_cons.
      cbn [is_article_error is_request].
      repeat split; lia.
    + rewrite (extract_loop_cons_raise _ _ _ _ _ _ _ _ Hrun).
      destruct (IH news_data
                  (logged ERROR (ErrorExtractingArticle
                                   (NoSuchElementException "h3.stream-item-title"))
                     (did (FindElement "h3.stream-item-title") st)))
        as (items & st' & a2 & Hloop & Ht2 & Hlen & Hc2 & Hr2).
      eexists items, st', (_ :: _ :: a2).
      rewrite Hloop, Ht2. cbn [logged did trace].
      rewrite <- !app_assoc. cbn [app length].
      split; [reflexivity|]. split; [reflexivity|].
      rewrite !count_events_cons. cbn [is_article_error is_request].
      repeat split; lia.
    + rewrite (extract_loop_cons_raise _ _ _ _ _ _ _ _ Hrun).
      destruct (IH news_data
                  (logged ERROR (ErrorExtractingArticle TimeoutException)
                     (did (WaitPresence "p[data-test-locator='stream-item-summary']" 10)
                        (did (FindElement "h3.stream-item-title") st))))
        as (items & st' & a2 & Hloop & Ht2 & Hlen & Hc2 & Hr2).
      eexists items, st', (_ :: _ :: _ :: a2).
      rewrite Hloop, Ht2. cbn [logged did trace].
      rewrite <- !app_assoc. cbn [app length].
      split; [reflexivity|]. split; [reflexivity|].
      rewrite !count_events_cons. cbn [is_article_error is_request].
      repeat split; lia.
Qed.

Lemma scroll_loop_no_error_line env : forall fuel articles previous_count,
  emits_within is_article_error 0 (scroll_loop env fuel articles previous_count).
Proof.
  induction fuel as [|fuel IH]; intros articles previous_count;
    cbn [scroll_loop]; unfold info; never.
Qed.

Lemma scroll_loop_no_request env : forall fuel articles previous_count,
  emits_within is_request 0 (scroll_loop env fuel articles previous_count).
Proof.
  induction fuel as [|fuel IH]; intros articles previous_count;
    cbn [scroll_loop]; unfold info; never.
Qed.

#[local] Hint Resolve scroll_loop_no_error_line scroll_loop_no_request : emits.

Lemma scroll_and_load_no_error_line env fuel :
  emits_within is_article_error 0 (scroll_and_load env fuel).
Proof. unfold scroll_and_load, info. never. Qed.

Lemma scroll_and_load_no_request env fuel :
  emits_within is_request 0 (scroll_and_load env fuel).
Proof. unfold scroll_and_load, info. never. Qed.

Lemma scroll_and_load_at_most_20 env fuel st articles st' :
  scroll_and_load env fuel st = (Ok articles, st') -> length articles <= 20.
Proof.
  rewrite scroll_and_load_unfold.
  destruct (scroll_loop env fuel [] 0 _) as [[a|e|] st1]; try discriminate.
  pose proof (firstn_le_length 20 a) as Hle.
  remember (firstn 20 a) as first20 eqn:E. clear E.
  intros H. injection H as Ha _. subst articles. exact Hle.
Qed.

(** X2: [extract_news_data] accounts for every loaded article: it becomes a
    record or it leaves one "Error extracting article" line in the log, so
    records and error lines add up to the number of loaded articles; there
    are at most 20 records; and an image download is requested at most once
    per record, never for a skipped article. *)
Theorem extract_news_data_accounts (env : Env) (self : NewsScraper) (fuel : nat)
  (st : State) (loaded : list Article) (st1 : State) :
  scroll_and_load env fuel (logged INFO ExtractingNewsData st) = (Ok loaded, st1) ->
  exists items st' added,
    extract_news_data env self fuel st = (Ok items, st')
    /\ trace st' = (trace st ++ added)
    /\ length items = length (filter processable loaded)
    /\ length items + count_events is_article_error added = length loaded
    /\ count_events is_request added <= length items
    /\ length items <= 20.
Proof.
  intros Hload.
  pose proof (scroll_and_load_at_most_20 _ _ _ _ _ Hload) as H20.
  destruct (scroll_and_load_no_error_line env fuel (logged INFO ExtractingNewsData st))
    as (a0 & Ht0 & He0).
  destruct (scroll_and_load_no_request env fuel (logged INFO ExtractingNewsData st))
    as (a0' & Ht0' & Hr0).
  rewrite Ht0 in Ht0'. apply app_inv_head in Ht0'. subst a0'.
  rewrite Hload in Ht0. cbn [snd logged did trace] in Ht0.
  destruct (extract_loop_accounts env self loaded [] st1)
    as (items & st' & a1 & Hloop & Ht1 & Hlen & He1 & Hr1).
  exists items, st', (Logged INFO ExtractingNewsData :: a0 ++ a1).
  split.
  { unfold extract_news_data, info. rewrite emit_then.
    fold (logged INFO ExtractingNewsData st).
    rewrite (bind_ok _ _ _ _ _ Hload). exact Hloop. }
  split.
  { rewrite Ht1, Ht0, <- !app_assoc. reflexivity. }
  rewrite !count_events_cons, !count_events_app. cbn [is_article_error is_request].
  pose proof (filter_length_le processable loaded).
  repeat split; lia.
Qed.

Lemma extract_news_data_accounts_witness :
  exists items st' added,
    extract_news_data (site (fun _ => five_cards)) (scraper_of (u "Politics")) 5
      initial_state = (Ok items, st')
    /\ trace st' = (trace initial_state ++ added)
    /\ length items = length (filter processable five_cards)
    /\ length items + count_events is_article_error added = length five_cards
    /\ count_events is_request added <= length items
    /\ length items <= 20.
Proof.
  eapply (extract_news_data_accounts (site (fun _ => five_cards))
            (scraper_of (u "Politics")) 5 initial_state five_cards).
  vm_compute. reflexivity.
Defined.

(** ** The polls of the loader *)

Lemma scroll_loop_polls (env : Env) : forall fuel articles previous_count st,
  exists added,
    trace (snd (scroll_loop env fuel articles previous_count st))
    = (trace st ++ added)
    /\ polled (snd (scroll_loop env fuel articles previous_count st))
       = polled st + count_events is_poll added
    /\ seconds_slept added = 4 * count_events is_poll added
    /\ count_events is_poll added <= fuel
    /\ (forall result,
          fst (scroll_loop env fuel articles previous_count st) = Ok result ->
          length articles < 20 ->
          0 < count_events is_poll added
          /\ result
             = polls env
                 (polled (snd (scroll_loop env fuel articles previous_count st)) - 1)).
Proof.
  induction fuel as [|fuel IH]; intros articles previous_count st.
  - exists []. rewrite app_nil_r.
    destruct (Nat.lt_ge_cases (length articles) 20) as [Hlt|Hge].
    + cbn [scroll_loop]. apply Nat.ltb_lt in Hlt. rewrite Hlt.
      cbn. repeat split; intros; try lia; discriminate.
    + rewrite scroll_loop_done by assumption.
      cbn. repeat split; intros; lia.
  - destruct (Nat.lt_ge_cases (length articles) 20) as [Hlt|Hge].
    2: { exists []. rewrite app_nil_r, scroll_loop_done by assumption.
         cbn. repeat split; intros; lia. }
    rewrite scroll_loop_pass by assumption.
    destruct (Nat.eqb_spec (length (polls env (polled st))) previous_count) as [E|E].
    + eexists. cbn [fst snd logged did after_poll trace polled].
      rewrite <- app_assoc. split; [reflexivity|].
      cbn [app]. rewrite !count_events_cons. cbn [is_poll seconds_slept].
      unfold count_events. cbn [filter length].
      split; [lia|]. split; [lia|]. split; [lia|].
      intros result H _. injection H as <-. split; [lia|f_equal; lia].
    + destruct (Nat.lt_ge_cases (length (polls env (polled st))) 20) as [Hlt'|Hge'].
      * destruct (IH (polls env (polled st)) (length (polls env (polled st)))
                    (after_poll env st)) as (added & Ht & Hp & Hs & Hf & Hres).
        eexists. rewrite Ht, Hp. cbn [after_poll trace polled].
        rewrite <- app_assoc. split; [reflexivity|].
        cbn [app]. rewrite !count_events_cons. cbn [is_poll seconds_slept].
        split; [lia|]. split; [lia|]. split; [lia|].
        intros result Hok _. destruct (Hres result Hok Hlt') as [_ Hr].
        split; [lia|]. rewrite Hr, Hp. cbn [after_poll polled]. reflexivity.
      * rewrite scroll_loop_done by assumption.
        eexists. cbn [fst snd after_poll trace polled]. split; [reflexivity|].
        rewrite !count_events_cons. cbn [is_poll seconds_slept].
        unfold count_events. cbn [filter length].
        split; [lia|]. split; [lia|]. split; [lia|].
        intros result H _. injection H as <-. split; [lia|f_equal; lia].
Qed.

(** X3: whenever [scroll_and_load] returns, it has polled the page at least
    once and at most once per pass of its loop, it has slept 4 seconds per
    poll, and what it returns are the first 20 cards of the last poll it
    made, never those of an earlier poll. *)
Theorem scroll_and_load_polls (env : Env) (fuel : nat) (st st' : State)
  (articles : list Article) :
  scroll_and_load env fuel st = (Ok articles, st') ->
  exists added,
    trace st' = (trace st ++ added)
    /\ polled st' = polled st + count_events is_poll added
    /\ 1 <= count_events is_poll added <= fuel
    /\ seconds_slept added = 4 * count_events is_poll added
    /\ articles = firstn 20 (polls env (polled st' - 1)).
Proof.
  rewrite scroll_and_load_unfold.
  destruct (scroll_loop_polls env fuel [] 0 (logged INFO ScrollingAndLoading st))
    as (added & Ht & Hp & Hs & Hf & Hres).
  destruct (scroll_loop env fuel [] 0 _) as [[result|e|] st1]; try discriminate.
  cbn [fst snd logged did trace polled] in *.
  destruct (Hres result eq_refl ltac:(simpl; lia)) as [Hpos Hr].
  remember (firstn 20 result) as first20 eqn:E20.
  intros H. injection H as Ha Hst. subst articles st1.
  exists (Logged INFO ScrollingAndLoading :: added).
  rewrite Ht, <- app_assoc, count_events_cons. cbn [is_poll seconds_slept app].
  split; [reflexivity|]. split; [lia|]. split; [lia|]. split; [lia|].
  rewrite E20, Hr. reflexivity.
Qed.

Lemma scroll_and_load_polls_witness :
  exists articles st' added,
    scroll_and_load nine 5 initial_state = (Ok articles, st')
    /\ trace st' = (trace initial_state ++ added)
    /\ polled st' = polled initial_state + count_events is_poll added
    /\ 1 <= count_events is_poll added <= 5
    /\ seconds_slept added = 4 * count_events is_poll added
    /\ articles = firstn 20 (polls nine (polled st' - 1)).
Proof.
  eexists. eexists.
  assert (Hrun : scroll_and_load nine 5 initial_state
                 = (fst (scroll_and_load nine 5 initial_state),
                    snd (scroll_and_load nine 5 initial_state)))
    by apply surjective_pairing.
  assert (Hok : fst (scroll_and_load nine 5 initial_state) = Ok (cards 9))
    by (vm_compute; reflexivity).
  rewrite Hok in Hrun.
  destruct (scroll_and_load_polls nine 5 initial_state _ _ Hrun) as (added & H).
  exists added. split; [exact Hrun|exact H].
Defined.

(** ** The record of an article *)

Lemma extract_image_url_run (article : Article) (st : State) :
  extract_image_url article st =
  match img article with
  | Some image_url =>
      (Ok image_url,
       logged INFO (ExtractedImageUrl image_url) (did (FindElement "img") st))
  | None =>
      (Ok None,
       logged ERROR (FailedToExtractImageUrl (NoSuchElementException "img"))
         (did (FindElement "img") st))
  end.
Proof. unfold extract_image_url. destruct (img article); reflexivity. Qed.

(** X4: the record of an article that has a title and a summary.  Title and
    description are the texts of the two elements (never the fallback
    sentence), the date is the day of the extraction, the count is that of
    the phrase in the two texts, and the picture is the placeholder unless
    the card has an image with a non-empty [src] whose download succeeds;
    a card without image element still gets its record. *)
Theorem extract_article_record (env : Env) (self : NewsScraper) (article : Article)
  (title_element description_element : WebElement) (st : State) :
  h3_stream_item_title article = Some title_element ->
  p_stream_item_summary article = Some description_element ->
  let image_url := match img article with Some src => src | None => None end in
  let image_filename :=
    Spec.image_filename env (category self) (text title_element) (timestamp self) in
  let image_path := Py.os_path_join (images_dir self) image_filename in
  exists st',
    extract_article env self article st =
    (Ok {| NewsItem.title := text title_element;
           NewsItem.description := text description_element;
           NewsItem.date := strftime_date env;
           NewsItem.picture_filename :=
             if no_url image_url then u "placeholder.png"
             else match urlretrieve env (url_text image_url) image_path with
                  | None => image_filename
                  | Some _ => u "placeholder.png"
                  end;
           NewsItem.search_phrase_count :=
             (Z.of_nat (Py.count (str_lower env (text title_element))
                          (str_lower env (search_phrase self)))
              + Z.of_nat (Py.count (str_lower env (text description_element))
                            (str_lower env (search_phrase self))))%Z |}, st').
Proof.
  intros Htitle Hsum. cbv zeta.
  unfold extract_article. rewrite Htitle, Hsum.
  rewrite emit_then, ret_then, emit_then, ret_then.
  assert (Hdl : forall image_url st1, exists st2,
             download_image env self image_url (text title_element) st1 =
             (Ok (if no_url image_url then u "placeholder.png"
                  else match urlretrieve env (url_text image_url)
                               (Py.os_path_join (images_dir self)
                                  (Spec.image_filename env (category self)
                                     (text title_element) (timestamp self))) with
                       | None => Spec.image_filename env (category self)
                                   (text title_element) (timestamp self)
                       | Some _ => u "placeholder.png"
                       end), st2)).
  { intros image_url st1. rewrite download_image_run. cbv zeta.
    destruct (no_url image_url); [eauto|].
    destruct (urlretrieve env _ _); eauto. }
  destruct (img article) as [src|] eqn:Himg;
    (erewrite bind_ok by (rewrite extract_image_url_run, Himg; reflexivity)).
  - destruct (Hdl src (logged INFO (ExtractedImageUrl src)
                         (did (FindElement "img")
                            (did (WaitPresence "p[data-test-locator='stream-item-summary']" 10)
                               (did (FindElement "h3.stream-item-title") st)))))
      as (st2 & Hrun).
    erewrite bind_ok by exact Hrun.
    eexists. reflexivity.
  - destruct (Hdl None (logged ERROR (FailedToExtractImageUrl (NoSuchElementException "img"))
                          (did (FindElement "img")
                             (did (WaitPresence "p[data-test-locator='stream-item-summary']" 10)
                                (did (FindElement "h3.stream-item-title") st)))))
      as (st2 & Hrun).
    erewrite bind_ok by exact Hrun.
    eexists. reflexivity.
Qed.

Lemma extract_article_record_witness :
  exists st',
    extract_article (politics (fun _ => []))
      (scraper_of (u "Politics"))
      (pictured (u "Election day!") (u "https://s.yimg.com/e.jpg")) initial_state =
    (Ok {| NewsItem.title := u "Election day!";
           NewsItem.description := u "Election night: the election results";
           NewsItem.date := u "2024-08-20";
           NewsItem.picture_filename := u "POLITICS_Electionday_20240820153000.jpg";
           NewsItem.search_phrase_count := 3%Z |}, st').
Proof.
  exact (extract_article_record (politics (fun _ => [])) (scraper_of (u "Politics"))
           (pictured (u "Election day!") (u "https://s.yimg.com/e.jpg"))
           {| text := u "Election day!" |}
           {| text := u "Election night: the election results" |}
           initial_state eq_refl eq_refl).
Defined.

(** ** Image files *)

Lemma In_string_in (x : str) (l : list str) : In x l -> string_in x l = true.
Proof.
  intros H. unfold string_in. apply existsb_exists.
  exists x. split; [assumption|apply eqb_refl].
Qed.

Lemma image_filename_same_prefix (env : Env) (category title1 title2 timestamp : str) :
  Spec.word_chars (is_word env) (firstn 15 title1)
  = Spec.word_chars (is_word env) (firstn 15 title2) ->
  Spec.image_filename env category title1 timestamp
  = Spec.image_filename env category title2 timestamp.
Proof.
  unfold Spec.image_filename, Spec.sanitized_title_prefix. now intros ->.
Qed.

(** X5: the name of an image file depends on the category, the run and the
    word characters among the first 15 characters of the title, not on the
    image: two articles whose titles agree on these characters are given the
    same file name, and the second download goes to the file of the first
    one; no second file appears. *)
Theorem download_image_same_name (env : Env) (self : NewsScraper)
  (url1 url2 title1 title2 : str) (st : State) :
  url1 <> [] ->
  url2 <> [] ->
  Spec.word_chars (is_word env) (firstn 15 title1)
  = Spec.word_chars (is_word env) (firstn 15 title2) ->
  let name := Spec.image_filename env (category self) title1 (timestamp self) in
  let path := Py.os_path_join (images_dir self) name in
  urlretrieve env url1 path = None ->
  urlretrieve env url2 path = None ->
  exists st1 st2,
    download_image env self (Some url1) title1 st = (Ok name, st1)
    /\ download_image env self (Some url2) title2 st1 = (Ok name, st2)
    /\ In path (files st1)
    /\ files st2 = files st1.
Proof.
  intros Hu1 Hu2 Hsame. cbv zeta. intros Hf1 Hf2.
  assert (Hn1 : no_url (Some url1) = false) by (destruct url1; [congruence|reflexivity]).
  assert (Hn2 : no_url (Some url2) = false) by (destruct url2; [congruence|reflexivity]).
  rewrite download_image_run. cbv zeta.
  rewrite Hn1. cbn [url_text]. rewrite Hf1.
  eexists; eexists. split; [reflexivity|].
  rewrite download_image_run. cbv zeta.
  rewrite <- (image_filename_same_prefix _ _ _ _ _ Hsame).
  rewrite Hn2. cbn [url_text]. rewrite Hf2. cbn [files].
  split; [reflexivity|]. split; [apply In_created|].
  now rewrite (In_string_in _ _ (In_created _ _)).
Qed.

(** Two headlines on a [Café], told apart only behind the accent. *)
Lemma download_image_same_name_witness :
  exists st1 st2,
    download_image slow_start (scraper_of (u "US"))
      (Some (u "https://s.yimg.com/a.jpg"))
      (u "Caf" ++ [233%N] ++ u " opens, thousands queue") initial_state
    = (Ok (u "US_Caf" ++ [233%N] ++ u "openstho_20240820153000.jpg"), st1)
    /\ download_image slow_start (scraper_of (u "US"))
         (Some (u "https://s.yimg.com/b.jpg"))
         (u "Caf" ++ [233%N] ++ u " opens: those who wait") st1
       = (Ok (u "US_Caf" ++ [233%N] ++ u "openstho_20240820153000.jpg"), st2)
    /\ In (u "output/US_20240820153000/images/US_Caf" ++ [233%N]
           ++ u "openstho_20240820153000.jpg")
          (files st1)
    /\ files st2 = files st1.
Proof.
  apply (download_image_same_name slow_start (scraper_of (u "US"))
           (u "https://s.yimg.com/a.jpg") (u "https://s.yimg.com/b.jpg")
           (u "Caf" ++ [233%N] ++ u " opens, thousands queue")
           (u "Caf" ++ [233%N] ++ u " opens: those who wait")
           initial_state);
    solve [discriminate | reflexivity].
Defined.

(** ** The shape of the names *)

Lemma word_chars_Forall (is_word : codepoint -> bool) (s : str) :
  Forall (fun c => is_word c = true) (Spec.word_chars is_word s).
Proof.
  unfold Spec.word_chars. apply Forall_forall. intros c Hc.
  apply filter_In in Hc. tauto.
Qed.

Lemma word_chars_length (is_word : codepoint -> bool) (s : str) :
  length (Spec.word_chars is_word s) <= length s.
Proof. apply filter_length_le. Qed.

Lemma slice_to_length (n : nat) (s : str) : length (Py.slice_to n s) <= n.
Proof. rewrite slice_to_firstn. apply firstn_le_length. Qed.

(** X6: the normalised category contains no space, whatever the upper case
    of its characters is (it can be longer than the category: [straße]
    gives [STRASSE]); the sanitised title prefix has at most 15 characters,
    all of them of the class [\w]. *)
Theorem names_are_normalised (env : Env) (category title : str) :
  Forall (fun c => c <> chr " ") (category_prefix env category)
  /\ length (Py.re_sub_nonword (is_word env) (Py.slice_to 15 title)) <= 15
  /\ Forall (fun c => is_word env c = true)
       (Py.re_sub_nonword (is_word env) (Py.slice_to 15 title))
  /\ length (category_prefix slow_start (u "stra" ++ [223%N] ++ u "e")) = 7.
Proof.
  split; [|split; [|split]].
  - apply Forall_forall. intros c Hc E. subst c.
    exact (replace_no_space _ Hc).
  - rewrite re_sub_nonword_word_chars.
    pose proof (word_chars_length (is_word env) (Py.slice_to 15 title)).
    pose proof (slice_to_length 15 title). lia.
  - rewrite re_sub_nonword_word_chars. apply word_chars_Forall.
  - reflexivity.
Qed.

(** ** Bounds on the phrase count *)

Lemma startswith_length (p s : str) :
  Py.startswith p s = true -> length p <= length s.
Proof.
  revert s. induction p as [|a p IH]; intros s H; simpl; [lia|].
  destruct s as [|b s]; simpl in H; [discriminate|].
  apply andb_true_iff in H as [_ H].
  specialize (IH s H). simpl. lia.
Qed.

(** Each occurrence the scan counts takes its own characters of the text. *)
Lemma count_from_room (sub : str) : forall s skip,
  sub <> [] ->
  skip + Py.count_from skip sub s * length sub <= Nat.max skip (length s).
Proof.
  induction s as [|c s IH]; intros skip Hsub.
  - simpl. lia.
  - cbn [Py.count_from]. destruct skip as [|k].
    + destruct (Py.startswith sub (c :: s)) eqn:Hp.
      * apply startswith_length in Hp.
        specialize (IH (length sub - 1) Hsub).
        destruct sub as [|a sub']; [congruence|].
        cbn [length] in *. nia.
      * specialize (IH 0 Hsub). cbn [length]. lia.
    + specialize (IH k Hsub). cbn [length]. lia.
Qed.

Lemma count_room (s sub : str) :
  sub <> [] -> Py.count s sub * length sub <= length s.
Proof.
  intros Hsub. pose proof (count_from_room sub s 0 Hsub) as H.
  destruct sub; [congruence|]. unfold Py.count. lia.
Qed.

(** X7: the edges of [search_phrase_count], in the characters of the lowered
    texts (lowering can lengthen a text).  When the lowered search phrase is
    empty it returns the two lengths plus 2 (the empty string is found at
    every position of both texts); otherwise the occurrences it counts fit
    into the texts, so the count times the length of the phrase is at most
    the length of title and description together, and a phrase longer than
    both texts is counted 0 times. *)
Theorem search_phrase_count_bounds (env : Env) (self : NewsScraper)
  (title description : str) (st : State) :
  let phrase := str_lower env (search_phrase self) in
  let lowered_title := str_lower env title in
  let lowered_description := str_lower env description in
  exists n,
    fst (search_phrase_count env self title description st) = Ok (Z.of_nat n)
    /\ (phrase = [] ->
        n = length lowered_title + length lowered_description + 2)
    /\ (phrase <> [] ->
        n * length phrase <= length lowered_title + length lowered_description)
    /\ (length lowered_title < length phrase ->
        length lowered_description < length phrase ->
        n = 0).
Proof.
  cbv zeta.
  exists (Py.count (str_lower env title) (str_lower env (search_phrase self))
          + Py.count (str_lower env description) (str_lower env (search_phrase self))).
  split; [rewrite search_phrase_count_run; cbn [fst]; now rewrite Nat2Z.inj_add|].
  assert (Hroom : str_lower env (search_phrase self) <> [] ->
                  Py.count (str_lower env title) (str_lower env (search_phrase self))
                  * length (str_lower env (search_phrase self))
                  <= length (str_lower env title)
                  /\ Py.count (str_lower env description)
                       (str_lower env (search_phrase self))
                     * length (str_lower env (search_phrase self))
                     <= length (str_lower env description)).
  { intros Hne. split; apply count_room; exact Hne. }
  split; [|split].
  - intros ->. cbn [Py.count]. lia.
  - intros Hne. destruct (Hroom Hne). lia.
  - intros Ht Hd.
    assert (Hne : str_lower env (search_phrase self) <> [])
      by (intros E; rewrite E in Ht; simpl in Ht; lia).
    destruct (Hroom Hne) as [H1 H2].
    destruct (Py.count (str_lower env title) _),
      (Py.count (str_lower env description) _); simpl in *; lia.
Qed.

(** A capital I with a dot has two characters in lower case: with the empty
    phrase the one-character title counts 3 and the empty description 1. *)
Lemma search_phrase_count_bounds_witness :
  exists n,
    fst (search_phrase_count slow_start
           {| site_url := []; search_phrase := []; category := [];
              headless := true; timestamp := []; output_dir := [];
              images_dir := [] |}
           [304%N] [] initial_state)
    = Ok (Z.of_nat n)
    /\ n = 4.
Proof.
  destruct (search_phrase_count_bounds slow_start
              {| site_url := []; search_phrase := []; category := [];
                 headless := true; timestamp := []; output_dir := [];
                 images_dir := [] |}
              [304%N] [] initial_state) as (n & Hrun & Hempty & _).
  exists n. split; [exact Hrun|]. apply Hempty. reflexivity.
Defined.

(** ** The category filter when the control is there *)

Lemma filter_visible_run (env : Env) (self : NewsScraper) (st : State) :
  category self <> [] ->
  is_element_visible env (u "xpath://span[text()='" ++ category self ++ u "']") = true ->
  filter_news_by_category env self st =
  (if heading_appears env then Ok tt else Raise TimeoutException,
   did (WaitPresence "h3" 10)
     (did (ClickElement (u "xpath://span[text()='" ++ category self ++ u "']"))
        (did (IsElementVisible (u "xpath://span[text()='" ++ category self ++ u "']"))
           (logged INFO (FilteringNewsByCategory (category self)) st)))).
Proof.
  intros Hc Hvis. unfold filter_news_by_category.
  destruct (category self) as [|c rest] eqn:E; [congruence|].
  cbn [Py.truthy]. unfold info. rewrite !emit_then.
  rewrite Hvis. rewrite !emit_then.
  destruct (heading_appears env); reflexivity.
Qed.

(** X9: when the control of a non-empty category is visible,
    [filter_news_by_category] clicks it once and waits up to 10 seconds for a
    heading; it returns if one appears and raises [TimeoutException] if none
    does, and in that case [main] ends with the timeout without having polled
    an article or written a file. *)
Theorem filter_clicks_and_waits (env : Env) (config : Config.t) (fuel : nat)
  (st : State) :
  Config.category config <> [] ->
  is_element_visible env
    (u "xpath://span[text()='" ++ Config.category config ++ u "']") = true ->
  let locator := u "xpath://span[text()='" ++ Config.category config ++ u "']" in
  (forall self st1,
      category self = Config.category config ->
      exists st2,
        filter_news_by_category env self st1
        = (if heading_appears env then Ok tt else Raise TimeoutException, st2)
        /\ trace st2 =
           (trace st1
            ++ [Logged INFO (FilteringNewsByCategory (Config.category config));
                IsElementVisible locator; ClickElement locator;
                WaitPresence "h3" 10]))
  /\ (heading_appears env = false ->
      exists st',
        main env config fuel st = (Raise TimeoutException, st')
        /\ polled st' = polled st
        /\ files st' = files st).
Proof.
  intros Hc Hvis. cbv zeta. split.
  - intros self st1 Hself. rewrite <- Hself in *.
    rewrite filter_visible_run by assumption.
    eexists. split; [reflexivity|].
    cbn [logged did trace]. now rewrite <- !app_assoc.
  - intros Hhead.
    destruct (init_run env (Config.site_url config) (Config.search_phrase config)
                (Config.category config)
                (match Config.headless config with Some h => h | None => true end) st)
      as (st0 & Hinit & Hpolled & Hfiles).
    match type of Hinit with _ = (Ok ?s, _) => set (self := s) in * end.
    eexists. unfold main. rewrite (bind_ok _ _ _ _ _ Hinit).
    rewrite (bind_ok _ _ _ _ _ (open_site_run self st0)).
    erewrite bind_raise
      by (rewrite filter_visible_run by assumption; rewrite Hhead; reflexivity).
    split; [reflexivity|]. cbn [logged did polled files]. split; assumption.
Qed.

Lemma filter_clicks_and_waits_witness :
  exists st',
    main (offline []) (config_of (u "Politics")) 5 initial_state
    = (Raise TimeoutException, st')
    /\ polled st' = 0
    /\ files st' = [].
Proof.
  apply (proj2 (filter_clicks_and_waits (offline []) (config_of (u "Politics")) 5
                  initial_state ltac:(discriminate) eq_refl)).
  reflexivity.
Defined.

(** ** A whole run *)

Lemma filter_ok_run (env : Env) (self : NewsScraper) (st : State) :
  category self = []
  \/ (is_element_visible env (u "xpath://span[text()='" ++ category self ++ u "']") = true
      /\ heading_appears env = true) ->
  exists st',
    filter_news_by_category env self st = (Ok tt, st')
    /\ polled st' = polled st
    /\ files st' = files st.
Proof.
  intros [Hempty|[Hvis Hhead]].
  - exists st. unfold filter_news_by_category. rewrite Hempty. auto.
  - destruct (list_eq_dec N.eq_dec (category self) []) as [Hempty|Hne].
    + exists st. unfold filter_news_by_category. rewrite Hempty. auto.
    + rewrite filter_visible_run, Hhead by assumption.
      eexists. split; [reflexivity|]. split; reflexivity.
Qed.

Lemma extract_news_data_returns (env : Env) (self : NewsScraper) (fuel : nat)
  (st : State) :
  20 <= fuel ->
  (forall i, poll_count env st i <= poll_count env st (S i)) ->
  exists rows st' rest,
    extract_news_data env self fuel st = (Ok rows, st')
    /\ length rows <= 20
    /\ trace st' = (trace st ++ Logged INFO ExtractingNewsData :: rest).
Proof.
  intros Hfuel Hmono.
  destruct (scroll_loop_returns env fuel [] 0
              (logged INFO ScrollingAndLoading (logged INFO ExtractingNewsData st)))
    as (result & st1 & Hloop); [exact Hmono|reflexivity|lia|lia|].
  assert (Hload : scroll_and_load env fuel (logged INFO ExtractingNewsData st)
                  = (Ok (firstn 20 result), st1))
    by (rewrite scroll_and_load_unfold, Hloop; reflexivity).
  pose proof (firstn_le_length 20 result) as H20.
  remember (firstn 20 result) as loaded eqn:E. clear E.
  destruct (scroll_and_load_no_request env fuel (logged INFO ExtractingNewsData st))
    as (a0 & Ht0 & _).
  rewrite Hload in Ht0. cbn [snd logged did trace] in Ht0.
  destruct (extract_loop_accounts env self loaded [] st1)
    as (items & st' & a1 & Hrun & Ht1 & Hlen & _ & _).
  exists items, st', (a0 ++ a1). split.
  { unfold extract_news_data, info. rewrite emit_then.
    fold (logged INFO ExtractingNewsData st).
    rewrite (bind_ok _ _ _ _ _ Hload). exact Hrun. }
  split.
  { rewrite Hlen. pose proof (filter_length_le processable loaded). lia. }
  rewrite Ht1, Ht0, <- !app_assoc. reflexivity.
Qed.

(** The report step when the spreadsheet can be written: the log file is
    written too, or its failure is logged and swallowed. *)
Lemma save_to_excel_ok (env : Env) (self : NewsScraper) (rows : list NewsItem.t)
  (st : State) :
  let xlsx :=
    Py.os_path_join (output_dir self)
      (category_prefix env (category self) ++ u "_news_data_" ++ timestamp self ++ u ".xlsx") in
  let txt :=
    Py.os_path_join (output_dir self)
      (category_prefix env (category self) ++ u "_scrape_log_" ++ timestamp self ++ u ".txt") in
  to_excel env xlsx = None ->
  exists st' added,
    save_to_excel env self rows st = (Ok tt, st')
    /\ trace st' = (trace st ++ added)
    /\ In (DataFrameToExcel xlsx rows) added
    /\ In xlsx (files st')
    /\ (open_for_writing env txt = None -> In txt (files st'))
    /\ (forall e, open_for_writing env txt = Some e ->
          In (Logged ERROR (FailedToSaveScrapingLog e)) added
          /\ files st' = if string_in xlsx (files st) then files st
                         else (files st ++ [xlsx])).
Proof.
  cbv zeta. intros Hx.
  unfold save_to_excel, save_scrape_log. rewrite Hx. run.
  destruct (open_for_writing env _) as [e|] eqn:Ht; run.
  - eexists; eexists. split; [reflexivity|]. cbn [trace files].
    split; [rewrite <- !app_assoc; reflexivity|].
    split; [find_event|]. split; [apply In_created|].
    split; [discriminate|].
    intros e' He'. injection He' as <-. split; [find_event|reflexivity].
  - eexists; eexists. split; [reflexivity|]. cbn [trace files].
    split; [rewrite <- !app_assoc; reflexivity|].
    split; [find_event|]. split; [apply In_kept, In_created|].
    split; [intros _; apply In_created|discriminate].
Qed.

Lemma init_no_report env site_url search_phrase category headless :
  emits_within is_report 0 (init env site_url search_phrase category headless).
Proof. unfold init, create_output_directory, info. never. Qed.

Lemma open_site_no_report self : emits_within is_report 0 (open_site self).
Proof. unfold open_site, info. never. Qed.

Lemma filter_no_report env self :
  emits_within is_report 0 (filter_news_by_category env self).
Proof. unfold filter_news_by_category, info, error. never. Qed.

Lemma scroll_loop_no_report env : forall fuel articles previous_count,
  emits_within is_report 0 (scroll_loop env fuel articles previous_count).
Proof.
  induction fuel as [|fuel IH]; intros articles previous_count;
    cbn [scroll_loop]; unfold info; never.
Qed.

Lemma download_image_no_report env self image_url title :
  emits_within is_report 0 (download_image env self image_url title).
Proof. unfold download_image, info, error. never. Qed.

#[local] Hint Resolve scroll_loop_no_report download_image_no_report : emits.

Lemma extract_article_no_report env self article :
  emits_within is_report 0 (extract_article env self article).
Proof.
  unfold extract_article, extract_image_url, search_phrase_count, info, error.
  never.
Qed.

#[local] Hint Resolve extract_article_no_report : emits.

Lemma extract_loop_no_report env self : forall articles news_data,
  emits_within is_report 0 (extract_loop env self articles news_data).
Proof.
  induction articles as [|article rest IH]; intros news_data;
    cbn [extract_loop]; unfold info, error; never.
Qed.

#[local] Hint Resolve extract_loop_no_report : emits.

Lemma extract_news_data_no_report env self fuel :
  emits_within is_report 0 (extract_news_data env self fuel).
Proof. unfold extract_news_data, scroll_and_load, info. never. Qed.

(** The run up to the report step, on a site where the filter goes through
    and the page never drops cards. *)
Lemma main_until_report (env : Env) (config : Config.t) (fuel : nat) (st : State) :
  20 <= fuel ->
  (Config.category config = []
   \/ (is_element_visible env
         (u "xpath://span[text()='" ++ Config.category config ++ u "']") = true
       /\ heading_appears env = true)) ->
  (forall i, poll_count env st i <= poll_count env st (S i)) ->
  exists self rows st3 added,
    category self = Config.category config
    /\ timestamp self = utcnow env
    /\ output_dir self
       = Py.os_path_join (u "output")
           (category_prefix env (Config.category config) ++ u "_" ++ utcnow env)
    /\ length rows <= 20
    /\ trace st3 = (trace st ++ added)
    /\ In (Logged INFO ExtractingNewsData) added
    /\ count_events is_report added = 0
    /\ main env config fuel st
       = bind (save_to_excel env self rows) (fun _ => close self) st3.
Proof.
  intros Hfuel Hfilter Hmono.
  destruct (init_run env (Config.site_url config) (Config.search_phrase config)
              (Config.category config)
              (match Config.headless config with Some h => h | None => true end) st)
    as (st0 & Hinit & Hpolled & _).
  destruct (init_no_report env (Config.site_url config) (Config.search_phrase config)
              (Config.category config)
              (match Config.headless config with Some h => h | None => true end) st)
    as (a0 & Ht0 & Hc0).
  rewrite Hinit in Ht0. cbn [snd] in Ht0.
  match type of Hinit with _ = (Ok ?s, _) => set (self := s) in * end.
  pose proof (open_site_run self st0) as Hopen.
  destruct (open_site_no_report self st0) as (a1 & Ht1 & Hc1).
  rewrite Hopen in Ht1. cbn [snd] in Ht1.
  remember (did (OpenAvailableBrowser (site_url self) (headless self))
              (logged INFO (OpeningSite (site_url self) (headless self)) st0))
    as st1 eqn:Est1.
  assert (Hpolled1 : polled st1 = polled st0) by (subst st1; reflexivity).
  destruct (filter_ok_run env self st1) as (st2 & Hfilt & Hpolled2 & _);
    [exact Hfilter|].
  destruct (filter_no_report env self st1) as (a2 & Ht2 & Hc2).
  rewrite Hfilt in Ht2. cbn [snd] in Ht2.
  destruct (extract_news_data_returns env self fuel st2 Hfuel)
    as (rows & st3 & rest & Hrun & Hlen & Htrace).
  { intros i. unfold poll_count. rewrite Hpolled2, Hpolled1, Hpolled. apply Hmono. }
  destruct (extract_news_data_no_report env self fuel st2) as (a3 & Ht3 & Hc3).
  rewrite Hrun in Ht3. cbn [snd] in Ht3.
  exists self, rows, st3, (a0 ++ a1 ++ a2 ++ a3).
  split; [reflexivity|]. split; [reflexivity|]. split; [reflexivity|].
  split; [exact Hlen|]. split.
  { rewrite Ht3, Ht2, Ht1, Ht0, <- !app_assoc. reflexivity. }
  split.
  { rewrite Htrace in Ht3. apply app_inv_head in Ht3. subst a3.
    apply in_or_app. right. apply in_or_app. right. apply in_or_app. right.
    left. reflexivity. }
  split; [rewrite !count_events_app; lia|].
  unfold main. rewrite (bind_ok _ _ _ _ _ Hinit).
  rewrite (bind_ok _ _ _ _ _ Hopen).
  rewrite (bind_ok _ _ _ _ _ Hfilt).
  rewrite (bind_ok _ _ _ _ _ Hrun). reflexivity.
Qed.

(** X10: a whole run.  On a site where the filter goes through (the category
    is empty, or its control is visible and a heading appears), whose count
    of cards never shrinks, and where the spreadsheet can be written, [main]
    ends normally: it writes at most 20 rows to
    [output/<CATEGORY>_<timestamp>/<CATEGORY>_news_data_<timestamp>.xlsx],
    and closing the browser is the last thing it does.  Whether the text log
    can be written does not matter: it is written, or the failure is logged
    and the run ends normally all the same. *)
Theorem main_end_to_end (env : Env) (config : Config.t) (fuel : nat) (st : State) :
  let prefix := category_prefix env (Config.category config) in
  let output_dir := Py.os_path_join (u "output") (prefix ++ u "_" ++ utcnow env) in
  let xlsx :=
    Py.os_path_join output_dir (prefix ++ u "_news_data_" ++ utcnow env ++ u ".xlsx") in
  let txt :=
    Py.os_path_join output_dir (prefix ++ u "_scrape_log_" ++ utcnow env ++ u ".txt") in
  20 <= fuel ->
  (Config.category config = []
   \/ (is_element_visible env
         (u "xpath://span[text()='" ++ Config.category config ++ u "']") = true
       /\ heading_appears env = true)) ->
  (forall i, poll_count env st i <= poll_count env st (S i)) ->
  to_excel env xlsx = None ->
  exists rows st' before,
    main env config fuel st = (Ok tt, st')
    /\ length rows <= 20
    /\ trace st' = (before ++ [Logged INFO ClosingAllBrowsers; CloseAllBrowsers])
    /\ In (DataFrameToExcel xlsx rows) before
    /\ In xlsx (files st')
    /\ (open_for_writing env txt = None -> In txt (files st'))
    /\ (forall e, open_for_writing env txt = Some e ->
          In (Logged ERROR (FailedToSaveScrapingLog e)) before).
Proof.
  cbv zeta. intros Hfuel Hfilter Hmono Hx.
  destruct (main_until_report env config fuel st Hfuel Hfilter Hmono)
    as (self & rows & st3 & _ & Hcat & Hts & Hdir & Hlen & _ & _ & _ & Hmain).
  rewrite <- Hcat, <- Hts, <- Hdir in *.
  destruct (save_to_excel_ok env self rows st3 Hx)
    as (st4 & added & Hsave & Htrace & Hevent & Hfile & Hlog & Hfail).
  exists rows. eexists. exists (trace st3 ++ added).
  rewrite Hmain, (bind_ok _ _ _ _ _ Hsave), close_run.
  split; [reflexivity|]. split; [exact Hlen|].
  cbn [logged did trace files]. rewrite Htrace.
  split; [now rewrite <- !app_assoc|].
  split; [apply in_or_app; now right|].
  split; [exact Hfile|]. split; [exact Hlog|].
  intros e He. apply in_or_app. right. apply (Hfail e He).
Qed.

Lemma main_end_to_end_witness :
  exists rows st' before,
    main (politics (fun i => cards (7 * (i + 1)))) (config_of (u "Politics")) 20
      initial_state = (Ok tt, st')
    /\ length rows <= 20
    /\ trace st' = (before ++ [Logged INFO ClosingAllBrowsers; CloseAllBrowsers])
    /\ In (DataFrameToExcel
             (u "output/POLITICS_20240820153000/POLITICS_news_data_20240820153000.xlsx")
             rows) before
    /\ In (Logged ERROR (FailedToSaveScrapingLog (OSError "read-only"))) before.
Proof.
  destruct (main_end_to_end (politics (fun i => cards (7 * (i + 1))))
              (config_of (u "Politics")) 20 initial_state)
    as (rows & st' & before & Hmain & Hlen & Htrace & Hevent & _ & _ & Hfail).
  - lia.
  - right. split; reflexivity.
  - intros i. unfold poll_count, politics. cbn [polls polled initial_state].
    rewrite !cards_length. lia.
  - reflexivity.
  - exists rows, st', before. split; [exact Hmain|]. split; [exact Hlen|].
    split; [exact Htrace|]. split; [exact Hevent|].
    apply Hfail. reflexivity.
Defined.

(** X11: the spreadsheet write is not guarded.  On the same kind of site,
    when [to_excel] raises, [main] ends with that exception once the articles
    have been extracted: no spreadsheet and no text log is written, and no
    line about either is logged. *)
Theorem main_spreadsheet_failure (env : Env) (config : Config.t) (fuel : nat)
  (st : State) (e : exn) :
  let prefix := category_prefix env (Config.category config) in
  let output_dir := Py.os_path_join (u "output") (prefix ++ u "_" ++ utcnow env) in
  let xlsx :=
    Py.os_path_join output_dir (prefix ++ u "_news_data_" ++ utcnow env ++ u ".xlsx") in
  20 <= fuel ->
  (Config.category config = []
   \/ (is_element_visible env
         (u "xpath://span[text()='" ++ Config.category config ++ u "']") = true
       /\ heading_appears env = true)) ->
  (forall i, poll_count env st i <= poll_count env st (S i)) ->
  to_excel env xlsx = Some e ->
  exists st' added,
    main env config fuel st = (Raise e, st')
    /\ trace st' = (trace st ++ added)
    /\ In (Logged INFO ExtractingNewsData) added
    /\ count_events is_report added = 0.
Proof.
  cbv zeta. intros Hfuel Hfilter Hmono Hx.
  destruct (main_until_report env config fuel st Hfuel Hfilter Hmono)
    as (self & rows & st3 & added & Hcat & Hts & Hdir & _ & Htrace & Hin & Hcount & Hmain).
  rewrite <- Hcat, <- Hts, <- Hdir in *.
  exists st3, added. rewrite Hmain.
  split; [|auto].
  apply bind_raise. unfold save_to_excel. rewrite Hx. reflexivity.
Qed.

Lemma main_spreadsheet_failure_witness :
  exists st' added,
    main (offline (cards 3)) (config_of []) 20 initial_state
    = (Raise (OSError "disk full"), st')
    /\ trace st' = (trace initial_state ++ added)
    /\ In (Logged INFO ExtractingNewsData) added
    /\ count_events is_report added = 0.
Proof.
  apply (main_spreadsheet_failure (offline (cards 3)) (config_of []) 20
           initial_state (OSError "disk full")).
  - lia.
  - left. reflexivity.
  - intros i. unfold poll_count, offline. cbn [polls]. lia.
  - reflexivity.
Defined.


(** ** Where the run's directory is *)

Lemma startswith_slash_cons (c : codepoint) (s : str) :
  Py.startswith (u "/") (c :: s) = N.eqb c (chr "/").
Proof.
  cbn [u Py.startswith]. rewrite andb_true_r. apply N.eqb_sym.
Qed.

Lemma startswith_slash_app (prefix rest : str) :
  Py.startswith (u "/") (prefix ++ u "_" ++ rest) = Py.startswith (u "/") prefix.
Proof. destruct prefix as [|c tail]; reflexivity. Qed.

Lemma startswith_slash_normalised (env : Env) (category : str) :
  Spec.upper_keeps_slash (upper_char env) ->
  Py.startswith (u "/") (category_prefix env category)
  = Py.startswith (u "/") category.
Proof.
  intros [Hslash Hother].
  destruct category as [|c tail]; [reflexivity|].
  rewrite startswith_slash_cons.
  unfold category_prefix, Py.upper, Py.replace. cbn [flat_map].
  destruct (N.eqb_spec c (chr "/")) as [E|E].
  - subst c. rewrite Hslash. reflexivity.
  - destruct (Hother c E) as (d & rest & Hup & Hd). rewrite Hup.
    cbn [app map]. rewrite startswith_slash_cons.
    destruct (N.eqb_spec d (chr " ")) as [Hsp|Hsp]; [reflexivity|].
    now apply N.eqb_neq.
Qed.

(** X13: the directory of a run is [output/<CATEGORY>_<timestamp>] unless the
    normalised category begins with a slash: then [os.path.join] drops
    [output] and the directory is the absolute path [<CATEGORY>_<timestamp>],
    outside the output tree.  Upper case being what every interpreter has
    it, the normalised category begins with a slash exactly when the
    category does. *)
Theorem output_dir_location (env : Env) (site_url search_phrase category : str)
  (headless : bool) (st : State) :
  exists self st',
    init env site_url search_phrase category headless st = (Ok self, st')
    /\ (Py.startswith (u "/") (category_prefix env category) = true ->
        output_dir self = category_prefix env category ++ u "_" ++ utcnow env)
    /\ (Py.startswith (u "/") (category_prefix env category) = false ->
        output_dir self
        = u "output/" ++ category_prefix env category ++ u "_" ++ utcnow env)
    /\ (Spec.upper_keeps_slash (upper_char env) ->
        Py.startswith (u "/") (category_prefix env category)
        = Py.startswith (u "/") category).
Proof.
  destruct (init_run env site_url search_phrase category headless st)
    as (st' & Hinit & _).
  eexists; exists st'. split; [exact Hinit|]. cbn [output_dir].
  unfold Py.os_path_join. rewrite startswith_slash_app.
  split; [|split].
  - intros Hslash; rewrite Hslash; reflexivity.
  - intros Hslash; rewrite Hslash; reflexivity.
  - apply startswith_slash_normalised.
Qed.

Lemma output_dir_location_witness :
  exists self st',
    init slow_start (u "https://news.yahoo.com") (u "election") (u "/tmp/news") true
      initial_state = (Ok self, st')
    /\ output_dir self = u "/TMP/NEWS_20240820153000".
Proof.
  destruct (output_dir_location slow_start (u "https://news.yahoo.com")
              (u "election") (u "/tmp/news") true initial_state)
    as (self & st' & Hinit & Habs & _ & Hslash).
  exists self, st'. split; [exact Hinit|]. apply Habs.
  rewrite (Hslash latin1_upper_keeps_slash). reflexivity.
Defined.

(** ** More on loading *)

(** X15: a page that shows 20 cards or more at the first poll is polled
    once, and exactly 20 cards, the first 20 of that poll, are returned. *)
Theorem scroll_and_load_full_first_poll (env : Env) (st : State) (fuel : nat) :
  20 <= length (polls env (polled st)) ->
  exists st',
    scroll_and_load env (S fuel) st = (Ok (firstn 20 (polls env (polled st))), st')
    /\ length (firstn 20 (polls env (polled st))) = 20
    /\ polled st' = S (polled st).
Proof.
  intros Hfull. rewrite scroll_and_load_unfold.
  rewrite scroll_loop_pass by (simpl; lia).
  cbn [logged did polled].
  destruct (Nat.eqb_spec (length (polls env (polled st))) 0) as [E|_]; [lia|].
  rewrite scroll_loop_done by assumption.
  eexists. split; [reflexivity|].
  split; [apply firstn_length_le; assumption|reflexivity].
Qed.

Lemma scroll_and_load_full_first_poll_witness :
  exists st',
    scroll_and_load (page (fun _ => 23)) 1 initial_state
    = (Ok (firstn 20 (polls (page (fun _ => 23)) (polled initial_state))), st')
    /\ length (firstn 20 (polls (page (fun _ => 23)) (polled initial_state))) = 20
    /\ polled st' = S (polled initial_state).
Proof.
  apply (scroll_and_load_full_first_poll (page (fun _ => 23)) initial_state 0).
  unfold page, site. cbn [polls]. rewrite cards_length. lia.
Defined.
